(** * The GSM channel of the Paradox alarm interface

    A shallow embedding of [paradox/interfaces/gsm_interface.py]: the
    [GSMInterface] thread object, its outbound priority queue, the modem
    connection handling, the inbound SMS command processor, and the
    properties its specification states about them.

    Conventions of the embedding.
    - A Python [bytes] value is a [string], a list of bytes. A text that
      comes out of [decode('latin-1')], a literal of the source or a
      setting is a [string] too: its code points are below 256, and the
      string primitives of [Py] are Python's on such text. A text that
      reaches the channel from another channel is a [Py.str], a list of
      code points of any size; a [string] is read as a [Py.str] through
      [Py.decode], and [Py.encode] is [encode('latin-1')], which fails on
      a code point above 255.
    - Python integers are [Z].
    - The serial device, the alarm and the notification handler are
      outside the program. What the device answers is read from a [World]
      of oracles indexed by a tick that advances on each consultation; what
      the program does to the outside is emitted as a list of [Event]s.
    - A method is followed from its call to its return on the object as
      the call finds it. What another thread does to the object, a
      [stop()] or a put on the queue, happens between two calls; a
      property that depends on the stop flag says what the flag is in a
      hypothesis, and the others do not read it.
    - Of [run], one round of its loop is modelled, [run_iteration]; the
      loop around the rounds and its two handlers are not.
    - Logging calls are not modelled. *)

From stdpp Require Import base list strings gmap.
From Stdlib Require Import ZArith Ascii String Lia.

Open Scope string_scope.
Open Scope list_scope.
Open Scope Z_scope.

(** ** Python string primitives *)

Module Py.

(** [str.isspace] on the code points below 256: U+0009..U+000D,
    U+001C..U+0020, U+0085 and U+00A0. *)
Definition is_space (c : ascii) : bool :=
  let n := Z.of_nat (nat_of_ascii c) in
  ((9 <=? n) && (n <=? 13)) || ((28 <=? n) && (n <=? 32))
  || (n =? 133) || (n =? 160).

(** The whitespace [bytes.strip] removes: space, tab, LF, VT, FF, CR. *)
Definition is_bytes_space (c : ascii) : bool :=
  let n := Z.of_nat (nat_of_ascii c) in
  ((9 <=? n) && (n <=? 13)) || (n =? 32).

(** [str.lower] on one code point below 256: A..Z, and U+00C0..U+00DE
    except the multiplication sign U+00D7, move up by 32. *)
Definition lower_char (c : ascii) : ascii :=
  let n := Z.of_nat (nat_of_ascii c) in
  if ((65 <=? n) && (n <=? 90))
     || ((192 <=? n) && (n <=? 222) && negb (n =? 215))
  then ascii_of_nat (Z.to_nat (n + 32))
  else c.

Fixpoint lower (s : string) : string :=
  match s with
  | EmptyString => EmptyString
  | String c s' => String (lower_char c) (lower s')
  end.

Fixpoint lstrip_with (sp : ascii -> bool) (s : string) : string :=
  match s with
  | EmptyString => EmptyString
  | String c s' => if sp c then lstrip_with sp s' else s
  end.

Fixpoint rstrip_with (sp : ascii -> bool) (s : string) : string :=
  match s with
  | EmptyString => EmptyString
  | String c s' =>
      match rstrip_with sp s' with
      | EmptyString => if sp c then EmptyString else String c EmptyString
      | r => String c r
      end
  end.

Definition strip (s : string) : string :=
  rstrip_with is_space (lstrip_with is_space s).

Definition bytes_strip (s : string) : string :=
  rstrip_with is_bytes_space (lstrip_with is_bytes_space s).

(** [s.split(sep)] with a one-character separator: never empty, and two
    adjacent separators give an empty token. *)
Fixpoint split (sep : ascii) (s : string) : list string :=
  match s with
  | EmptyString => [EmptyString]
  | String c s' =>
      if Ascii.eqb c sep then EmptyString :: split sep s'
      else match split sep s' with
           | t :: ts => String c t :: ts
           | [] => [String c EmptyString]
           end
  end.

Definition startswith (s pre : string) : bool := String.prefix pre s.

(** [x in l] for a list of strings. *)
Definition str_in (x : string) (l : list string) : bool :=
  existsb (String.eqb x) l.

Definition dquote : string := String "034" EmptyString.
Definition CRLF : string := String "013" (String "010" EmptyString).
Definition SUB : string := String "026" EmptyString.

(** A Python [str]: its code points. *)
Inductive str := Str (code_points : list N).

Definition code_points (t : str) : list N := let '(Str l) := t in l.

(** [bytes.decode('latin-1')]: each byte is its own code point. *)
Definition decode (b : string) : str :=
  Str (map N_of_ascii (list_ascii_of_string b)).

(** [str.encode('latin-1')]; [None] is its [UnicodeEncodeError], raised
    when a code point is above 255. *)
Definition encode (t : str) : option string :=
  if forallb (fun c => (c <? 256)%N) (code_points t)
  then Some (string_of_list_ascii (map ascii_of_N (code_points t)))
  else None.

(** [a + b] on [str]. *)
Definition add (a b : str) : str := Str (code_points a ++ code_points b).

(** [a == b] on [str]. *)
Definition str_eqb (a b : str) : bool :=
  bool_decide (code_points a = code_points b).

End Py.

(** A [string] stands for the [str] with the same code points. *)
Coercion Py.decode : string >-> Py.str.

(** ** [heapq], the heap behind [queue.PriorityQueue]

    [PriorityQueue.put] is [heappush] and [PriorityQueue.get] is
    [heappop] on a Python list. The comparison is the element's [__lt__],
    here the parameter [lt]. *)

Module Heapq.
Section Heapq.
Context {A : Type} (lt : A -> A -> bool).

(** The loop of [_siftdown]: [newitem] climbs from [pos] while it is
    smaller than its parent. [pos] strictly decreases, so [pos] rounds
    are enough. *)
Fixpoint siftdown_loop (rounds : nat) (heap : list A) (newitem : A)
    (startpos pos : nat) : list A :=
  match rounds with
  | O => <[pos := newitem]> heap
  | S rounds' =>
      if (startpos <? pos)%nat then
        let parentpos := Nat.shiftr (pos - 1) 1 in
        match heap !! parentpos with
        | Some parent =>
            if lt newitem parent
            then siftdown_loop rounds' (<[pos := parent]> heap) newitem
                   startpos parentpos
            else <[pos := newitem]> heap
        | None => heap
        end
      else <[pos := newitem]> heap
  end.

Definition siftdown (heap : list A) (startpos pos : nat) : list A :=
  match heap !! pos with
  | Some newitem => siftdown_loop pos heap newitem startpos pos
  | None => heap
  end.

(** The loop of [_siftup]: the hole at [pos] sinks to a leaf, the smaller
    child moving up each round; it returns the heap and the leaf reached.
    [pos] strictly increases below [endpos]. *)
Fixpoint siftup_loop (rounds : nat) (heap : list A) (endpos pos : nat)
    : list A * nat :=
  match rounds with
  | O => (heap, pos)
  | S rounds' =>
      let childpos := (2 * pos + 1)%nat in
      if (childpos <? endpos)%nat then
        let rightpos := (childpos + 1)%nat in
        let childpos' :=
          if (rightpos <? endpos)%nat then
            match heap !! childpos, heap !! rightpos with
            | Some l, Some r => if lt l r then childpos else rightpos
            | _, _ => childpos
            end
          else childpos in
        match heap !! childpos' with
        | Some child =>
            siftup_loop rounds' (<[pos := child]> heap) endpos childpos'
        | None => (heap, pos)
        end
      else (heap, pos)
  end.

Definition siftup (heap : list A) (pos : nat) : list A :=
  match heap !! pos with
  | Some newitem =>
      let '(heap', leaf) := siftup_loop (List.length heap) heap (List.length heap) pos in
      siftdown (<[leaf := newitem]> heap') pos leaf
  | None => heap
  end.

Definition heappush (heap : list A) (item : A) : list A :=
  siftdown (heap ++ [item]) 0 (List.length heap).

(** [heappop]: [None] stands for the [IndexError] of an empty heap. *)
Definition heappop (heap : list A) : option (A * list A) :=
  match last heap with
  | None => None
  | Some lastelt =>
      let heap' := removelast heap in
      match heap' with
      | [] => Some (lastelt, [])
      | returnitem :: _ => Some (returnitem, siftup (<[0%nat := lastelt]> heap') 0)
      end
  end.

Definition push_all (heap : list A) (items : list A) : list A :=
  foldl heappush heap items.

(** Pop until the heap is empty; the heap shrinks by one each time. *)
Fixpoint pop_n (n : nat) (heap : list A) : list A :=
  match n with
  | O => []
  | S n' =>
      match heappop heap with
      | Some (x, heap') => x :: pop_n n' heap'
      | None => []
      end
  end.

Definition pop_all (heap : list A) : list A := pop_n (List.length heap) heap.

End Heapq.
End Heapq.

(** ** Data model *)

(** [logging] levels. *)
Definition INFO : Z := 20.
Definition WARNING : Z := 30.
Definition CRITICAL : Z := 50.

(** The settings read from [config.user]. *)
Record Config := {
  GSM_MODEM_PORT : string;
  GSM_MODEM_BAUDRATE : Z;
  GSM_CONTACTS : list string
}.

(** The alarm collaborator: the three control methods, each answering
    whether the panel took the command. *)
Record Alarm := {
  control_zone : string -> string -> bool;
  control_partition : string -> string -> bool;
  control_output : string -> string -> bool
}.

Inductive NotificationHandler := Handler.

(** A raw event is a dict; the channel reads its ['major'] and ['minor']
    entries, each a pair of a code and a text. *)
Abbreviation RawEvent := (gmap string (Z * string)).

(** The third component of a queued tuple: the raw event of [event], or
    the [(source, message, level)] of [notify]. *)
Inductive Payload :=
| PRaw (raw : RawEvent)
| PNotify (source message : Py.str) (level : Z).

(** [SortableTuple((priority, kind, payload))]. *)
Definition SortableTuple : Type := Z * string * Payload.

(** A serial port object, named by the tick at which it was opened. *)
Definition Port : Type := nat.

(** The fields of a [GSMInterface] object the methods read or write. *)
Record GSMInterface := mkGSM {
  port : option Port;
  alarm : option Alarm;
  stop_running : bool;
  notification_handler : option NotificationHandler;
  modem_connected : bool;
  queue : list SortableTuple
}.

Definition name : string := "gsm".

(** The object after [__init__]: the class defaults, an empty queue and a
    cleared stop flag. *)
Definition GSMInterface_init : GSMInterface :=
  {| port := None; alarm := None; stop_running := false;
     notification_handler := None; modem_connected := false; queue := [] |}.

Definition with_port (p : option Port) (s : GSMInterface) : GSMInterface :=
  {| port := p; alarm := alarm s; stop_running := stop_running s;
     notification_handler := notification_handler s;
     modem_connected := modem_connected s; queue := queue s |}.

Definition with_alarm (a : option Alarm) (s : GSMInterface) : GSMInterface :=
  {| port := port s; alarm := a; stop_running := stop_running s;
     notification_handler := notification_handler s;
     modem_connected := modem_connected s; queue := queue s |}.

Definition with_stop_running (b : bool) (s : GSMInterface) : GSMInterface :=
  {| port := port s; alarm := alarm s; stop_running := b;
     notification_handler := notification_handler s;
     modem_connected := modem_connected s; queue := queue s |}.

Definition with_notification_handler (h : option NotificationHandler)
    (s : GSMInterface) : GSMInterface :=
  {| port := port s; alarm := alarm s; stop_running := stop_running s;
     notification_handler := h;
     modem_connected := modem_connected s; queue := queue s |}.

Definition with_modem_connected (b : bool) (s : GSMInterface) : GSMInterface :=
  {| port := port s; alarm := alarm s; stop_running := stop_running s;
     notification_handler := notification_handler s;
     modem_connected := b; queue := queue s |}.

Definition with_queue (q : list SortableTuple) (s : GSMInterface) : GSMInterface :=
  {| port := port s; alarm := alarm s; stop_running := stop_running s;
     notification_handler := notification_handler s;
     modem_connected := modem_connected s; queue := q |}.

(** ** The outside world *)

(** One test of the drain loop [while self.port.in_waiting > 0]: the value
    of [in_waiting] and, when it is positive, what the [read()] that
    follows returns ([None]: it raises); or [in_waiting] itself raises. *)
Inductive poll :=
| InWaiting (n : Z) (r : option string)
| InWaitingRaises.

(** What the serial device does, by tick. The pending input after a write
    is a finite script of polls, after which nothing is waiting: a modem
    that never stops sending is outside the model. *)
Record World := {
  serial_Serial : nat -> string -> Z -> bool;
  port_write : nat -> Port -> string -> option Z;
  port_pending : nat -> Port -> list poll;
  port_read : nat -> Port -> Z -> option string
}.

Record datetime := {
  year : Z; month : Z; day : Z; hour : Z; minute : Z; second : Z
}.

(** What the program does to the outside, in order. Durations are in
    milliseconds. *)
Inductive Event :=
| Sleep (ms : Z)
| SerialOpen (dev : string) (baud : Z) (r : option Port)
| PortWrite (p : Port) (data : string) (r : option Z)
| PortInWaiting (p : Port) (r : option Z)
| PortRead (p : Port) (size : Z) (r : option string)
| PortClose (p : Port)
| Notify (source message : string) (level : Z)
| ControlZone (element command : string)
| ControlPartition (element command : string)
| ControlOutput (element command : string).

(** The exceptions the methods and their calls to the device raise. Each
    is an [Exception], so [except Exception] catches every one of them. *)
Inductive Exn :=
| AttributeError | IndexError | KeyError | TypeError | ValueError
| SerialException | Empty | UnicodeEncodeError.

(** ** The monad of the methods: object state, tick, emitted events,
    and a Python exception or the exhaustion of a loop's fuel *)

Inductive Res (A : Type) :=
| Ret (a : A)
| Raise (e : Exn)
| Diverge.
Arguments Ret {A} a.
Arguments Raise {A} e.
Arguments Diverge {A}.

Record Machine := mkMachine { self : GSMInterface; tick : nat }.

Definition M (A : Type) : Type := Machine -> Res A * Machine * list Event.

Definition ret {A} (a : A) : M A := fun m => (Ret a, m, []).

Definition bind {A B} (c : M A) (k : A -> M B) : M B := fun m =>
  match c m with
  | (Ret a, m1, tr1) => let '(r, m2, tr2) := k a m1 in (r, m2, tr1 ++ tr2)
  | (Raise e, m1, tr1) => (Raise e, m1, tr1)
  | (Diverge, m1, tr1) => (Diverge, m1, tr1)
  end.

Notation "'let*' x ':=' c 'in' k" := (bind c (fun x => k))
  (at level 10, x pattern, c at level 100, k at level 200).
Notation "c ';;;' k" := (bind c (fun _ => k))
  (at level 100, k at level 200, right associativity).

Definition raise {A} (e : Exn) : M A := fun m => (Raise e, m, []).
Definition diverge {A} : M A := fun m => (Diverge, m, []).

(** [try: c except Exception: h]: the state changes and events of [c] up
    to the exception stay. *)
Definition try_except {A} (c : M A) (h : Exn -> M A) : M A := fun m =>
  match c m with
  | (Raise e, m1, tr1) => let '(r, m2, tr2) := h e m1 in (r, m2, tr1 ++ tr2)
  | other => other
  end.

(** [c] run to its end, the exception that ended it made a value. *)
Definition attempt {A} (c : M A) : M (Exn + A) := fun m =>
  match c m with
  | (Ret a, m1, tr1) => (Ret (inr a), m1, tr1)
  | (Raise e, m1, tr1) => (Ret (inl e), m1, tr1)
  | (Diverge, m1, tr1) => (Diverge, m1, tr1)
  end.

Definition get_self : M GSMInterface := fun m => (Ret (self m), m, []).

Definition modify (f : GSMInterface -> GSMInterface) : M unit := fun m =>
  (Ret tt, {| self := f (self m); tick := tick m |}, []).

Definition next_tick : M nat := fun m =>
  (Ret (tick m), {| self := self m; tick := S (tick m) |}, []).

Definition emit (e : Event) : M unit := fun m => (Ret tt, m, [e]).

Definition sleep (ms : Z) : M unit := emit (Sleep ms).

(** [for x in l: body x]. *)
Fixpoint for_each {A} (l : list A) (body : A -> M unit) : M unit :=
  match l with
  | [] => ret tt
  | x :: l' => body x ;;; for_each l' body
  end.

(** What a method hands back where Python returns [bytes] on one path and
    [str] on another. *)
Inductive PyData :=
| PyBytes (b : string)
| PyStr (s : string).

(** ** The methods of [GSMInterface] *)

Section Methods.
Variable cfg : Config.
Variable world : World.
(** [SortableTuple.__lt__], the order of the priority queue. *)
Variable SortableTuple_lt : SortableTuple -> SortableTuple -> bool.
(** [datetime.datetime.strptime]; [None] is its [ValueError]. *)
Variable strptime : string -> string -> option datetime.

(** *** Calls to the collaborators *)

(** [serial.Serial(port, baudrate=..., timeout=5)]. *)
Definition Serial (dev : string) (baud : Z) : M Port :=
  let* t := next_tick in
  if serial_Serial world t dev baud
  then emit (SerialOpen dev baud (Some t)) ;;; ret t
  else emit (SerialOpen dev baud None) ;;; raise SerialException.

(** [self.port.write(data)]; on [None] the attribute lookup fails. *)
Definition port_write_call (p : option Port) (data : string) : M Z :=
  match p with
  | None => raise AttributeError
  | Some p =>
      let* t := next_tick in
      match port_write world t p data with
      | Some n => emit (PortWrite p data (Some n)) ;;; ret n
      | None => emit (PortWrite p data None) ;;; raise SerialException
      end
  end.

(** [self.port.read(size)]. *)
Definition port_read_call (p : option Port) (size : Z) : M string :=
  match p with
  | None => raise AttributeError
  | Some p =>
      let* t := next_tick in
      match port_read world t p size with
      | Some d => emit (PortRead p size (Some d)) ;;; ret d
      | None => emit (PortRead p size None) ;;; raise SerialException
      end
  end.

(** [self.port.close()]. *)
Definition port_close_call (p : option Port) : M unit :=
  match p with
  | None => raise AttributeError
  | Some p => emit (PortClose p)
  end.

(** [self.notification_handler.notify(source, message, level)]. *)
Definition handler_notify (source message : string) (level : Z) : M unit :=
  let* s := get_self in
  match notification_handler s with
  | None => raise AttributeError
  | Some _ => emit (Notify source message level)
  end.

(** *** [stop], [set_alarm], [set_notify] *)

Definition stop : M unit :=
  modify (with_stop_running true) ;;;
  let* s := get_self in
  port_close_call (port s).

Definition set_alarm (a : option Alarm) : M unit := modify (with_alarm a).

Definition set_notify (h : option NotificationHandler) : M unit :=
  modify (with_notification_handler h).

(** *** [event], [change], [notify] *)

(** [raw[key]]. *)
Definition subscript (raw : RawEvent) (key : string) : M (Z * string) :=
  match raw !! key with
  | Some v => ret v
  | None => raise KeyError
  end.

Definition queue_put_nowait (item : SortableTuple) : M unit :=
  modify (fun s => with_queue (Heapq.heappush SortableTuple_lt (queue s) item) s).

Definition event (raw : RawEvent) : M unit :=
  let put := queue_put_nowait (2, "event", PRaw raw) in
  let* major := subscript raw "major" in
  if major.1 =? 37 then put else
  let* second :=
    (let* major := subscript raw "major" in
     if major.1 =? 2
     then let* minor := subscript raw "minor" in ret (minor.1 =? 6)
     else ret false) in
  if second then put else
  let* third :=
    (let* major := subscript raw "major" in
     if major.1 =? 40
     then let* minor := subscript raw "minor" in
          ret (existsb (Z.eqb minor.1) [0; 1; 2; 3; 4; 5])
     else ret false) in
  if third then put else ret tt.

Definition change (element label property value : string) : M unit := ret tt.

Definition notify (source message : Py.str) (level : Z) : M unit :=
  if Py.str_eqb source name then ret tt else
  if level <? CRITICAL then ret tt else
  queue_put_nowait (2, "notify", PNotify source message level).

(** *** [connected] and [write] *)

Definition commands : list string :=
  ["AT"; "ATE0"; "AT+CMGF=1"; "AT+CNMI=1,2,0,0,0";
   "AT+CUSD=1," +:+ Py.dquote +:+ "*111#" +:+ Py.dquote].

(** The [for command in commands] loop: [false] is its [return False]. *)
Fixpoint init_loop (cmds : list string) : M bool :=
  match cmds with
  | [] => ret true
  | command :: cmds' =>
      let* s := get_self in
      let* n := port_write_call (port s) command in
      if n =? 0 then ret false else init_loop cmds'
  end.

Definition connected : M bool :=
  let* s := get_self in
  if modem_connected s then ret true else
  let* completed :=
    try_except
      (let* p := Serial (GSM_MODEM_PORT cfg) (GSM_MODEM_BAUDRATE cfg) in
       modify (with_port (Some p)) ;;;
       init_loop commands)
      (fun _ => ret false) in
  if completed
  then modify (with_modem_connected true) ;;; ret true
  else ret false.

(** The drain loop of [write] over the polls the device will answer:
    the bytes gathered in [data] when the loop ends, and the exception
    that ended it, if one did. *)
Fixpoint drain_loop (p : Port) (script : list poll) (data : string)
    : (string * option Exn) * list Event :=
  match script with
  | [] => ((data, None), [PortInWaiting p (Some 0)])
  | InWaitingRaises :: _ =>
      ((data, Some SerialException), [PortInWaiting p None])
  | InWaiting n r :: script' =>
      if n >? 0 then
        match r with
        | Some b =>
            let '(res, tr) := drain_loop p script' (data +:+ b) in
            (res, PortInWaiting p (Some n) :: PortRead p 1 (Some b) :: tr)
        | None =>
            ((data, Some SerialException),
             [PortInWaiting p (Some n); PortRead p 1 None])
        end
      else ((data, None), [PortInWaiting p (Some n)])
  end.

Definition drain (p : option Port) : M (string * option Exn) :=
  match p with
  | None => ret (EmptyString, Some AttributeError)
  | Some p =>
      let* t := next_tick in
      fun m => let '(res, tr) := drain_loop p (port_pending world t p) EmptyString in
               (Ret res, m, tr)
  end.

(** [self.port.write((message + '\r\n').encode('latin-1'))]: the method
    is looked up on the port, then the line is encoded, then written. *)
Definition port_write_line (p : option Port) (message : Py.str) : M Z :=
  match p with
  | None => raise AttributeError
  | Some _ =>
      match Py.encode (Py.add message Py.CRLF) with
      | None => raise UnicodeEncodeError
      | Some line => port_write_call p line
      end
  end.

(** The [try] block of [write]: the value of [data] when the block ends
    and the exception that ended it, if one did. *)
Definition write_try (message : Py.str) : M (PyData * option Exn) :=
  let* s := get_self in
  let* w := attempt (port_write_line (port s) message) in
  match w with
  | inl e => ret (PyBytes EmptyString, Some e)
  | inr _ =>
      sleep 100 ;;;
      let* s := get_self in
      let* d := drain (port s) in
      match d with
      | (data, Some e) => ret (PyBytes data, Some e)
      | (data, None) => ret (PyStr (Py.bytes_strip data), None)
      end
  end.

Definition write (message : Py.str) : M PyData :=
  let* c := connected in
  if negb c then ret (PyBytes EmptyString) else
  let* r := write_try message in
  match r with
  | (data, Some _) => modify (with_modem_connected false) ;;; ret data
  | (data, None) => ret data
  end.

(** *** [send_sms], [send_message] *)

Definition send_sms (dst : string) (message : Py.str) : M unit :=
  write ("AT+CMGS=" +:+ Py.dquote +:+ dst +:+ Py.dquote) ;;;
  write message ;;;
  write (Py.SUB +:+ Py.CRLF) ;;;
  ret tt.

Definition send_message (message : Py.str) : M unit :=
  let* s := get_self in
  match port s with
  | None => ret tt
  | Some _ => for_each (GSM_CONTACTS cfg) (fun dst => send_sms dst message)
  end.

(** *** [normalize_payload], [send_command], [handle_message] *)

Definition normalize_payload (message : string) : option string :=
  let message := Py.lower (Py.strip message) in
  if Py.str_in message ["true"; "on"; "1"; "enable"] then Some "on"
  else if Py.str_in message ["false"; "off"; "0"; "disable"] then Some "off"
  else if Py.str_in message
            ["pulse"; "arm"; "disarm"; "arm_stay"; "arm_sleep"; "bypass";
             "clear_bypass"]
  then Some message
  else None.

(** [command in l], where [command] may be [None]. *)
Definition command_in (command : option string) (l : list string) : bool :=
  match command with
  | Some c => Py.str_in c l
  | None => false
  end.

Definition zone_commands : list string := ["bypass"; "clear_bypass"].
Definition partition_commands : list string :=
  ["arm"; "disarm"; "arm_stay"; "arm_sleep"].
Definition output_commands : list string := ["on"; "off"; "pulse"].

(** A control method of the alarm called with [command]; [command] is a
    string whenever the membership test before the call passed. *)
Definition alarm_call (ev : string -> string -> Event)
    (method : string -> string -> bool) (element : string)
    (command : option string) : M bool :=
  match command with
  | Some c => emit (ev element c) ;;; ret (method element c)
  | None => raise TypeError
  end.

(** The value returned is [Some b] for a Python bool and [None] for
    Python's [None]; every path of the source returns [None]. *)
Definition send_command (message : string) : M (option bool) :=
  let tokens := Py.split " " message in
  match tokens with
  | [t0; t1; t2] =>
      let* s := get_self in
      match alarm s with
      | None => ret None
      | Some a =>
          let element_type := Py.lower t0 in
          let element := t1 in
          let command := normalize_payload t2 in
          if String.eqb element_type "zone" then
            if negb (command_in command zone_commands) then ret None
            else
              let* accepted := alarm_call ControlZone (control_zone a) element command in
              ret None
          else if String.eqb element_type "partition" then
            if negb (command_in command partition_commands) then ret None
            else
              let* accepted :=
                alarm_call ControlPartition (control_partition a) element command in
              ret None
          else if String.eqb element_type "output" then
            if negb (command_in command output_commands) then ret None
            else
              let* accepted := alarm_call ControlOutput (control_output a) element command in
              ret None
          else ret None
      end
  | _ => ret None
  end.

(** Truth value of what [send_command] returned. *)
Definition truthy (v : option bool) : bool :=
  match v with
  | Some b => b
  | None => false
  end.

Definition handle_message (timestamp : datetime) (source message : string)
    : M unit :=
  let* s := get_self in
  match alarm s with
  | None => ret tt
  | Some _ =>
      handler_notify name (source +:+ ": " +:+ message) INFO ;;;
      if Py.str_in source (GSM_CONTACTS cfg) then
        let* r := send_command message in
        if truthy r then
          send_sms source ("ACCEPTED: " +:+ message) ;;;
          handler_notify name ("ACCEPTED: " +:+ source +:+ ": " +:+ message) INFO
        else
          send_sms source ("REJECTED: " +:+ message) ;;;
          handler_notify name ("REJECTED: " +:+ source +:+ ": " +:+ message) INFO
      else
        handler_notify name ("REJECTED: " +:+ source +:+ ": " +:+ message) INFO
  end.

(** *** [handle_event], [handle_change], [run_loop] *)

(** Every event is critical: call each contact. *)
Definition handle_event (raw : Payload) : M unit :=
  for_each (GSM_CONTACTS cfg) (fun contact => write ("ATD" +:+ contact) ;;; ret tt).

Definition handle_change (raw : Payload) : M unit := ret tt.

(** [handle_notify]: the message, without its source, to every contact;
    an exception is logged and goes no further. *)
Definition handle_notify (raw : Py.str * Py.str * Z) : M unit :=
  let '(source, message, level) := raw in
  try_except (send_message message) (fun _ => ret tt).

(** [self.queue.get(block=False, timeout=1)]. *)
Definition queue_get : M SortableTuple :=
  let* s := get_self in
  match Heapq.heappop SortableTuple_lt (queue s) with
  | None => raise Empty
  | Some (item, q) => modify (with_queue q) ;;; ret item
  end.

(** [payload[i]] with an integer [i]: a component of the tuple of
    [notify]; a raw event is a dict with string keys. *)
Definition payload_subscript (payload : Payload) (i : nat) : M Py.str :=
  match payload with
  | PNotify source message level =>
      match i with
      | O => ret source
      | 1%nat => ret message
      | _ => raise TypeError
      end
  | PRaw _ => raise KeyError
  end.

Definition run_loop : M bool :=
  try_except
    (let* item := queue_get in
     let '(_, kind, payload) := item in
     (if String.eqb kind "change" then handle_change payload
      else if String.eqb kind "event" then handle_event payload
      else if String.eqb kind "notify" then
        let* source := payload_subscript payload 0 in
        let* message := payload_subscript payload 1 in
        send_message (Py.add (Py.add source ": ") message)
      else ret tt) ;;;
     ret true)
    (fun _ => ret true).

(** *** The rounds of [run] *)

(** [while not self.connected() and self.stop_running.isSet()]: warn and
    sleep ten seconds. The flag is consulted only after [connected] said
    no, and is then the one the object holds. The loop need not end;
    [fuel] bounds its rounds. *)
Fixpoint reconnect_loop (fuel : nat) : M unit :=
  match fuel with
  | O => diverge
  | S fuel' =>
      let* c := connected in
      if negb c then
        let* s := get_self in
        if stop_running s
        then sleep 10000 ;;; reconnect_loop fuel'
        else ret tt
      else ret tt
  end.

(** [l[i]]. *)
Definition list_subscript (l : list string) (i : nat) : M string :=
  match l !! i with
  | Some x => ret x
  | None => raise IndexError
  end.

(** What [run] does with a non-empty chunk read from the port. *)
Definition inbound (data : string) : M unit :=
  let tokens := map Py.strip (Py.split "034" (Py.strip data)) in
  if (0 <? Z.of_nat (List.length tokens)) then
    let* t0 := list_subscript tokens 0 in
    if String.eqb t0 "+CMT:" then
      let* source := list_subscript tokens 1 in
      let* t5 := list_subscript tokens 5 in
      let* timestamp :=
        match strptime (hd EmptyString (Py.split "+" t5)) "%y/%m/%d,%H:%M:%S" with
        | Some d => ret d
        | None => raise ValueError
        end in
      let* message := list_subscript tokens 6 in
      handle_message timestamp source message
    else if Py.startswith t0 "+CUSD:" then
      let* t1 := list_subscript tokens 1 in
      handler_notify name t1 INFO
    else ret tt
  else ret tt.

(** One round of the [while not self.stop_running.isSet()] loop, from the
    one-second sleep to the end of the inner [try]. *)
Definition run_iteration (fuel : nat) : M unit :=
  sleep 1000 ;;;
  reconnect_loop fuel ;;;
  try_except
    (let* s := get_self in
     let* data := port_read_call (port s) 200 in
     if (0 <? Z.of_nat (String.length data)) then inbound data
     else run_loop ;;; ret tt)
    (fun _ => modify (with_modem_connected false)).

(** *** Filling and emptying the queue *)

Definition put_all (items : list SortableTuple) : M unit :=
  for_each items queue_put_nowait.

Fixpoint get_n (n : nat) : M (list SortableTuple) :=
  match n with
  | O => ret []
  | S n' =>
      let* item := queue_get in
      let* items := get_n n' in
      ret (item :: items)
  end.
End Methods.

(** ** Reading a trace *)

Definition is_notify (e : Event) : bool :=
  match e with Notify _ _ _ => true | _ => false end.

Definition is_alarm_call (e : Event) : bool :=
  match e with
  | ControlZone _ _ | ControlPartition _ _ | ControlOutput _ _ => true
  | _ => false
  end.

(** The events on the serial side: opening, writing, polling, reading,
    closing and sleeping. *)
Definition is_port_event (e : Event) : bool :=
  negb (is_notify e) && negb (is_alarm_call e).

Definition notifications (tr : list Event) : list Event := List.filter is_notify tr.
Definition alarm_calls (tr : list Event) : list Event := List.filter is_alarm_call tr.

(** The byte strings handed to [port.write], in order. *)
Fixpoint written (tr : list Event) : list string :=
  match tr with
  | [] => []
  | PortWrite _ data _ :: tr' => data :: written tr'
  | _ :: tr' => written tr'
  end.

(** The three lines [send_sms] puts on the wire. *)
Definition sms_lines (dst message : string) : list string :=
  [ ("AT+CMGS=" +:+ Py.dquote +:+ dst +:+ Py.dquote) +:+ Py.CRLF;
    message +:+ Py.CRLF;
    (Py.SUB +:+ Py.CRLF) +:+ Py.CRLF ].

(** The three lines of an SMS whose text encodes to [line]. *)
Definition sms_frame (dst line : string) : list string :=
  [ ("AT+CMGS=" +:+ Py.dquote +:+ dst +:+ Py.dquote) +:+ Py.CRLF;
    line;
    (Py.SUB +:+ Py.CRLF) +:+ Py.CRLF ].

(** A line the channel writes of its own accord when it sends to the
    contacts of [cfg]: an initialisation command, the header of an SMS to
    a contact, or the terminator of an SMS. *)
Definition framing (cfg : Config) (l : string) : Prop :=
  In l commands
  \/ l = (Py.SUB +:+ Py.CRLF) +:+ Py.CRLF
  \/ exists dst, In dst (GSM_CONTACTS cfg)
                 /\ l = ("AT+CMGS=" +:+ Py.dquote +:+ dst +:+ Py.dquote) +:+ Py.CRLF.



(** The polls at the head of a script that find something waiting, each
    with what its [read()] returns: the rounds of the drain loop. *)
Fixpoint waiting (script : list poll) : list (Z * string) :=
  match script with
  | InWaiting n (Some b) :: script' => if n >? 0 then (n, b) :: waiting script' else []
  | _ => []
  end.

(** What those reads return, joined. *)
Definition answer (script : list poll) : string :=
  fold_right (fun nb acc => nb.2 +:+ acc) EmptyString (waiting script).

(** The events of one round of the drain loop on [p]. *)
Definition drain_round (p : Port) (nb : Z * string) : list Event :=
  [PortInWaiting p (Some nb.1); PortRead p 1 (Some nb.2)].

(** An event of a connection attempt: opening the device or writing. *)
Definition is_connect_event (e : Event) : bool :=
  match e with
  | SerialOpen _ _ _ | PortWrite _ _ _ => true
  | _ => false
  end.

(** The bytes the successful reads of a trace returned, in order. *)
Fixpoint bytes_read (tr : list Event) : string :=
  match tr with
  | [] => EmptyString
  | PortRead _ _ (Some b) :: tr' => b +:+ bytes_read tr'
  | _ :: tr' => bytes_read tr'
  end.

(** The registrations and the queue are the same in both machines. *)
Definition same_registrations (m m' : Machine) : Prop :=
  alarm (self m') = alarm (self m)
  /\ notification_handler (self m') = notification_handler (self m)
  /\ stop_running (self m') = stop_running (self m)
  /\ queue (self m') = queue (self m).

(** A poll script that ends with nothing waiting, no call raising. *)
Fixpoint script_ok (script : list poll) : bool :=
  match script with
  | [] => true
  | InWaitingRaises :: _ => false
  | InWaiting n r :: script' =>
      if n >? 0 then match r with Some _ => script_ok script' | None => false end
      else true
  end.

(** A device on which no write and no poll raises. *)
Definition steady (world : World) : Prop :=
  (forall t p d, port_write world t p d <> None)
  /\ (forall t p, script_ok (port_pending world t p) = true).

(** ** Reading the queue *)

(** The condition under which the specification admits an event. *)
Definition critical_codes (major minor : Z) : Prop :=
  major = 37 \/ (major = 2 /\ minor = 6) \/ (major = 40 /\ In minor [0; 1; 2; 3; 4; 5]).

(** The machine after [item] was put on the queue. *)
Definition enqueued (lt : SortableTuple -> SortableTuple -> bool)
    (item : SortableTuple) (m : Machine) : Machine :=
  {| self := with_queue (Heapq.heappush lt (queue (self m)) item) (self m);
     tick := tick m |}.

(** ** Reading a string *)

(** A string of whitespace only: stripping it on the left leaves nothing. *)
Definition blank (s : string) : Prop := Py.lstrip_with Py.is_space s = EmptyString.

(** [c in s] for a character. *)
Fixpoint has_char (c : ascii) (s : string) : bool :=
  match s with
  | EmptyString => false
  | String x s' => Ascii.eqb x c || has_char c s'
  end.

(** The text of [s] up to its first double quote. *)
Definition before_quote (s : string) : string := hd EmptyString (Py.split "034" s).

(** A chunk with three quoted fields and a tail: a header, the sender, a
    second field and the time stamp, with whatever separates them. *)
Definition three_quoted (header source sep1 alpha sep2 stamp tail : string) : string :=
  header +:+ Py.dquote +:+ source +:+ Py.dquote +:+ sep1 +:+ Py.dquote +:+ alpha
  +:+ Py.dquote +:+ sep2 +:+ Py.dquote +:+ stamp +:+ Py.dquote +:+ tail.

(** A chunk with one quoted field and a tail. *)
Definition one_quoted (header text tail : string) : string :=
  header +:+ Py.dquote +:+ text +:+ Py.dquote +:+ tail.

Definition strptime_format : string := "%y/%m/%d,%H:%M:%S".

(** ** [SortableTuple]'s order *)

(** Modelled from the spec: the class [SortableTuple] of
    [paradox.lib.utils] is not among the sources. Its section 9 orders
    work items by priority and then insertion sequence; the tuples the
    channel builds hold no sequence number, which leaves the priority. *)
Definition lt_priority (a b : SortableTuple) : bool := a.1.1 <? b.1.1.

(** Modelled from the spec: the order of its section 3, by priority and
    then by kind, again without the sequence number the tuples lack. *)
Definition lt_priority_kind (a b : SortableTuple) : bool :=
  (a.1.1 <? b.1.1) || ((a.1.1 =? b.1.1) && String.ltb a.1.2 b.1.2).

(** ** Scenarios *)

Module Scenario.

Definition cfg : Config :=
  {| GSM_MODEM_PORT := "/dev/ttyUSB0"; GSM_MODEM_BAUDRATE := 9600;
     GSM_CONTACTS := ["+15550100"] |}.

(** A modem that opens, takes every write whole and has nothing to say. *)
Definition healthy : World :=
  {| serial_Serial := fun _ _ _ => true;
     port_write := fun _ _ data => Some (Z.of_nat (String.length data));
     port_pending := fun _ _ => [];
     port_read := fun _ _ _ => Some EmptyString |}.

(** A device that cannot be opened. *)
Definition unplugged : World :=
  {| serial_Serial := fun _ _ _ => false;
     port_write := fun _ _ _ => None;
     port_pending := fun _ _ => [InWaitingRaises];
     port_read := fun _ _ _ => None |}.

(** A modem that answers one byte and then fails. *)
Definition flaky : World :=
  {| serial_Serial := fun _ _ _ => true;
     port_write := fun _ _ data => Some (Z.of_nat (String.length data));
     port_pending := fun _ _ => [InWaiting 2 (Some "O"); InWaitingRaises];
     port_read := fun _ _ _ => Some EmptyString |}.

Definition accepting : Alarm :=
  {| control_zone := fun _ _ => true;
     control_partition := fun _ _ => true;
     control_output := fun _ _ => true |}.

Definition no_strptime (s fmt : string) : option datetime := None.

Definition noon : datetime :=
  {| year := 2019; month := 1; day := 1; hour := 12; minute := 0; second := 0 |}.

(** A running channel: modem connected on port 0, alarm and notification
    handler registered. *)
Definition online : Machine :=
  {| self := {| port := Some 0%nat; alarm := Some accepting;
                stop_running := false;
                notification_handler := Some Handler;
                modem_connected := true; queue := [] |};
     tick := 1 |}.

(** The same channel with no alarm registered. *)
Definition no_alarm : Machine :=
  {| self := with_alarm None (self online); tick := 1 |}.

(** The channel after a read failed: an old port object, not connected. *)
Definition dropped : Machine :=
  {| self := with_modem_connected false (self online); tick := 1 |}.

(** The channel after the round trip of a [write] failed at tick 3. *)
Definition failed : Machine :=
  {| self := with_modem_connected false (self online); tick := 3 |}.

(** A channel just constructed. *)
Definition fresh : Machine := {| self := GSMInterface_init; tick := 0 |}.

Definition ev (n : Z) : SortableTuple :=
  (2, "event", PRaw {[ "major" := (37, "alarm"); "minor" := (n, "zone") ]}).

Definition note (message : string) : SortableTuple :=
  (2, "notify", PNotify "mqtt" message CRITICAL).

Definition panic : RawEvent :=
  {[ "major" := (40, "Special alarm"); "minor" := (3, "Panic medical") ]}.

Definition two_contacts : Config :=
  {| GSM_MODEM_PORT := "/dev/ttyUSB0"; GSM_MODEM_BAUDRATE := 9600;
     GSM_CONTACTS := ["+15550100"; "+15550101"] |}.

(** A modem that has [data] to read. *)
Definition receiving (data : string) : World :=
  {| serial_Serial := fun _ _ _ => true;
     port_write := fun _ _ d => Some (Z.of_nat (String.length d));
     port_pending := fun _ _ => [];
     port_read := fun _ _ _ => Some data |}.

Definition strptime_noon (s fmt : string) : option datetime := Some noon.

(** A modem that answers each line with "OK" between line ends. *)
Definition chatty : World :=
  {| serial_Serial := fun _ _ _ => true;
     port_write := fun _ _ d => Some (Z.of_nat (String.length d));
     port_pending := fun _ _ =>
       [InWaiting 6 (Some (String "013" EmptyString));
        InWaiting 5 (Some (String "010" EmptyString));
        InWaiting 4 (Some "O"); InWaiting 3 (Some "K");
        InWaiting 2 (Some (String "013" EmptyString));
        InWaiting 1 (Some (String "010" EmptyString));
        InWaiting 0 None];
     port_read := fun _ _ _ => Some EmptyString |}.

(** A channel told to stop while it is not connected. *)
Definition stopping : Machine :=
  {| self := with_stop_running true (with_modem_connected false (self online));
     tick := 1 |}.

(** A text latin-1 cannot encode: "20 " and the euro sign, U+20AC. *)
Definition euro : Py.str := Py.add "20 " (Py.Str [8364%N]).

(** [m] after another thread has set the stop flag. *)
Definition stopped (m : Machine) : Machine :=
  {| self := with_stop_running true (self m); tick := tick m |}.

Definition stamp : string := "19/01/01,12:00:00+00".

(** An incoming SMS as the reader expects it, three quoted fields. *)
Definition sms_chunk : string :=
  three_quoted (Py.CRLF +:+ "+CMT: ") "+15550100" "," EmptyString "," stamp
    (Py.CRLF +:+ "output siren on" +:+ Py.CRLF).

(** An incoming SMS whose second field is empty and not quoted. *)
Definition bare_chunk : string :=
  "+CMT: " +:+ Py.dquote +:+ "+15550100" +:+ Py.dquote +:+ ",," +:+ Py.dquote +:+ stamp
  +:+ Py.dquote +:+ Py.CRLF +:+ "zone frontdoor bypass".

(** The answer to a USSD balance query. *)
Definition ussd_chunk : string :=
  one_quoted (Py.CRLF +:+ "+CUSD: 0,") "Balance 5.00 EUR" (",15" +:+ Py.CRLF).

End Scenario.

(** * Properties *)

(** ** The primitives on small inputs *)

Example normalize_payload_samples :
  map normalize_payload ["On"; "1"; "Enable"; " FALSE "; "Arm_Stay"; "bogus"]
  = [Some "on"; Some "on"; Some "on"; Some "off"; Some "arm_stay"; None].
Proof. reflexivity. Qed.

Example split_three_tokens :
  Py.split " " "zone frontdoor bypass" = ["zone"; "frontdoor"; "bypass"].
Proof. reflexivity. Qed.

Example split_double_space :
  Py.split " " "zone  bypass" = ["zone"; EmptyString; "bypass"].
Proof. reflexivity. Qed.

Example heap_sorts_integers :
  Heapq.pop_all Z.ltb (Heapq.push_all Z.ltb [] [5; 3; 8; 1; 9; 2]) = [1; 2; 3; 5; 8; 9].
Proof. reflexivity. Qed.

Example heap_of_equal_keys :
  Heapq.pop_all (fun _ _ : Z => false) (Heapq.push_all (fun _ _ => false) [] [1; 2; 3; 4])
  = [1; 3; 2; 4].
Proof. reflexivity. Qed.

(** ** The heap keeps its elements *)

Section HeapqFacts.
Context {A : Type} (lt : A -> A -> bool).

Lemma shiftr_parent (pos : nat) : (0 < pos)%nat -> (Nat.shiftr (pos - 1) 1 < pos)%nat.
Proof.
  intros Hpos. rewrite Nat.shiftr_div_pow2. change (2 ^ 1)%nat with 2%nat.
  assert ((pos - 1) / 2 <= pos - 1)%nat by (apply Nat.Div0.div_le_upper_bound; lia).
  lia.
Qed.

(** Writing [x] over the copy of [y] left at [j] while [y] already sits
    at [i] only moves the two. *)
Lemma insert_over_copy (l : list A) (i j : nat) (x y : A) :
  i <> j -> (i < List.length l)%nat -> l !! j = Some y ->
  <[j := x]> (<[i := y]> l) ≡ₚ <[i := x]> l.
Proof.
  intros Hij Hi Hj.
  rewrite <- (list_insert_insert_eq l i y x).
  apply Permutation_insert_swap.
  - apply list_lookup_insert_eq. exact Hi.
  - rewrite list_lookup_insert_ne by exact Hij. exact Hj.
Qed.

Lemma siftdown_loop_perm (rounds : nat) :
  forall (heap : list A) (newitem : A) (startpos pos : nat),
    (pos < List.length heap)%nat ->
    Heapq.siftdown_loop lt rounds heap newitem startpos pos ≡ₚ <[pos := newitem]> heap.
Proof.
  induction rounds as [|rounds IH]; intros heap newitem startpos pos Hpos;
    cbn [Heapq.siftdown_loop].
  - reflexivity.
  - destruct (startpos <? pos)%nat eqn:Hlt; [|reflexivity].
    apply Nat.ltb_lt in Hlt.
    assert (Hpar : (Nat.shiftr (pos - 1) 1 < pos)%nat) by (apply shiftr_parent; lia).
    destruct (heap !! Nat.shiftr (pos - 1) 1) as [parent|] eqn:Hlook.
    + destruct (lt newitem parent); [|reflexivity].
      rewrite IH by (rewrite length_insert; lia).
      apply insert_over_copy; [lia | exact Hpos | exact Hlook].
    + apply lookup_ge_None in Hlook. lia.
Qed.

Lemma siftdown_perm (heap : list A) (startpos pos : nat) :
  Heapq.siftdown lt heap startpos pos ≡ₚ heap.
Proof.
  unfold Heapq.siftdown. destruct (heap !! pos) as [newitem|] eqn:Hlook; [|reflexivity].
  rewrite siftdown_loop_perm by (eapply lookup_lt_Some; exact Hlook).
  rewrite list_insert_id by exact Hlook. reflexivity.
Qed.

Lemma siftup_loop_perm (rounds : nat) :
  forall (heap : list A) (endpos pos : nat) (newitem : A),
    (pos < List.length heap)%nat -> (endpos <= List.length heap)%nat ->
    ((Heapq.siftup_loop lt rounds heap endpos pos).2
       < List.length (Heapq.siftup_loop lt rounds heap endpos pos).1)%nat /\
    <[(Heapq.siftup_loop lt rounds heap endpos pos).2 := newitem]>
      (Heapq.siftup_loop lt rounds heap endpos pos).1 ≡ₚ <[pos := newitem]> heap.
Proof.
  induction rounds as [|rounds IH]; intros heap endpos pos newitem Hpos Hend;
    cbn [Heapq.siftup_loop].
  - split; [exact Hpos | reflexivity].
  - destruct (2 * pos + 1 <? endpos)%nat eqn:Hchild; [|split; [exact Hpos | reflexivity]].
    apply Nat.ltb_lt in Hchild.
    set (childpos' :=
           if (2 * pos + 1 + 1 <? endpos)%nat
           then match heap !! (2 * pos + 1)%nat, heap !! (2 * pos + 1 + 1)%nat with
                | Some l, Some r => if lt l r then (2 * pos + 1)%nat else (2 * pos + 1 + 1)%nat
                | _, _ => (2 * pos + 1)%nat
                end
           else (2 * pos + 1)%nat).
    assert (Hc : (pos < childpos' < endpos)%nat).
    { subst childpos'. destruct (2 * pos + 1 + 1 <? endpos)%nat eqn:Hright; [|lia].
      apply Nat.ltb_lt in Hright.
      destruct (heap !! (2 * pos + 1)%nat); [|lia].
      destruct (heap !! (2 * pos + 1 + 1)%nat); [|lia].
      destruct (lt _ _); lia. }
    destruct (heap !! childpos') as [child|] eqn:Hlook; [|split; [exact Hpos | reflexivity]].
    destruct (IH (<[pos := child]> heap) endpos childpos' newitem) as [Hleaf Hperm];
      [rewrite length_insert; lia | rewrite length_insert; lia |].
    split; [exact Hleaf |].
    rewrite Hperm. apply insert_over_copy; [lia | exact Hpos | exact Hlook].
Qed.

Lemma siftup_perm (heap : list A) (pos : nat) : Heapq.siftup lt heap pos ≡ₚ heap.
Proof.
  unfold Heapq.siftup. destruct (heap !! pos) as [newitem|] eqn:Hlook; [|reflexivity].
  assert (Hpos : (pos < List.length heap)%nat) by (eapply lookup_lt_Some; exact Hlook).
  destruct (siftup_loop_perm (List.length heap) heap (List.length heap) pos newitem Hpos)
    as [_ Hperm]; [lia |].
  destruct (Heapq.siftup_loop lt (List.length heap) heap (List.length heap) pos)
    as [heap' leaf]; simpl in Hperm.
  rewrite siftdown_perm, Hperm, list_insert_id by exact Hlook. reflexivity.
Qed.

Lemma heappush_perm (heap : list A) (item : A) :
  Heapq.heappush lt heap item ≡ₚ heap ++ [item].
Proof. apply siftdown_perm. Qed.

Lemma heappop_None (heap : list A) : Heapq.heappop lt heap = None <-> heap = [].
Proof.
  unfold Heapq.heappop. split.
  - destruct (last heap) eqn:Hlast.
    + destruct (removelast heap); discriminate.
    + intros _. apply last_None. exact Hlast.
  - intros ->. reflexivity.
Qed.

Lemma heappop_perm (heap heap' : list A) (x : A) :
  Heapq.heappop lt heap = Some (x, heap') -> x :: heap' ≡ₚ heap.
Proof.
  unfold Heapq.heappop. destruct (last heap) as [lastelt|] eqn:Hlast; [|discriminate].
  apply last_Some in Hlast as [init ->].
  rewrite removelast_last.
  destruct init as [|returnitem init]; intros [= <- <-].
  - reflexivity.
  - rewrite siftup_perm. cbn. apply perm_skip, Permutation_cons_append.
Qed.

Lemma push_all_perm (items heap : list A) :
  Heapq.push_all lt heap items ≡ₚ heap ++ items.
Proof.
  revert heap. induction items as [|x items IH]; intros heap; cbn.
  - rewrite app_nil_r. reflexivity.
  - unfold Heapq.push_all in IH. rewrite IH, heappush_perm, <- app_assoc. reflexivity.
Qed.

Lemma pop_n_perm (n : nat) :
  forall heap : list A, List.length heap = n -> Heapq.pop_n lt n heap ≡ₚ heap.
Proof.
  induction n as [|n IH]; intros heap Hlen; cbn.
  - destruct heap; [reflexivity | discriminate].
  - destruct (Heapq.heappop lt heap) as [[x heap']|] eqn:Hpop.
    + pose proof (heappop_perm _ _ _ Hpop) as Hperm.
      rewrite IH; [exact Hperm |].
      apply Permutation_length in Hperm. cbn in Hperm. lia.
    + apply heappop_None in Hpop. subst heap. discriminate.
Qed.

Lemma pop_all_perm (heap : list A) : Heapq.pop_all lt heap ≡ₚ heap.
Proof. apply pop_n_perm. reflexivity. Qed.

(** With a comparison that never holds among the items, a push appends:
    the heap is the insertion order. *)
Lemma heappush_append (heap : list A) (item : A) :
  (forall y, y ∈ heap -> lt item y = false) ->
  Heapq.heappush lt heap item = heap ++ [item].
Proof.
  intros Hlt. unfold Heapq.heappush, Heapq.siftdown.
  rewrite list_lookup_middle by reflexivity.
  assert (Hid : <[List.length heap := item]> (heap ++ [item]) = heap ++ [item]).
  { apply list_insert_id. apply list_lookup_middle. reflexivity. }
  destruct (List.length heap) as [|n] eqn:Hlen; cbn [Heapq.siftdown_loop].
  - exact Hid.
  - change (0 <? S n)%nat with true. cbv iota.
    pose proof (shiftr_parent (S n) ltac:(lia)) as Hpar.
    destruct ((heap ++ [item]) !! Nat.shiftr (S n - 1) 1) as [parent|] eqn:Hlook.
    + rewrite Hlt; [exact Hid |].
      rewrite lookup_app_l in Hlook by lia.
      eapply list_elem_of_lookup_2. exact Hlook.
    + apply lookup_ge_None in Hlook. rewrite length_app, Hlen in Hlook.
      change (List.length [item]) with 1%nat in Hlook. lia.
Qed.

Lemma push_all_append (items heap : list A) :
  (forall x y, x ∈ heap ++ items -> y ∈ heap ++ items -> lt x y = false) ->
  Heapq.push_all lt heap items = heap ++ items.
Proof.
  revert heap. induction items as [|x items IH]; intros heap Hlt; cbn.
  - rewrite app_nil_r. reflexivity.
  - rewrite heappush_append.
    + unfold Heapq.push_all in IH. rewrite IH, <- app_assoc; [reflexivity |].
      rewrite <- app_assoc. exact Hlt.
    + intros y Hy. apply Hlt; set_solver.
Qed.

(** Up to three queued items with such a comparison leave in the order
    they came. *)
Lemma pop_all_fifo3 (items : list A) :
  (forall x y, x ∈ items -> y ∈ items -> lt x y = false) ->
  (List.length items <= 3)%nat ->
  Heapq.pop_all lt items = items.
Proof.
  intros Hlt Hlen.
  destruct items as [|a [|b [|c [|d items]]]]; cbn in Hlen; try lia; try reflexivity.
  cbn. rewrite (Hlt c b) by set_solver. reflexivity.
Qed.

End HeapqFacts.

(** ** The queue of the channel *)

Section QueueFacts.
Variable lt : SortableTuple -> SortableTuple -> bool.

Lemma queue_put_nowait_spec (item : SortableTuple) (m : Machine) :
  queue_put_nowait lt item m = (Ret tt, enqueued lt item m, []).
Proof. reflexivity. Qed.

Lemma enqueued_length (item : SortableTuple) (m : Machine) :
  List.length (queue (self (enqueued lt item m))) = S (List.length (queue (self m))).
Proof.
  cbn. rewrite (Permutation_length (heappush_perm lt _ _)), length_app. cbn. lia.
Qed.

Lemma put_all_spec (items : list SortableTuple) :
  forall m : Machine,
    put_all lt items m =
    (Ret tt,
     {| self := with_queue (Heapq.push_all lt (queue (self m)) items) (self m);
        tick := tick m |}, []).
Proof.
  induction items as [|x items IH]; intros m.
  - destruct m as [[] ?]. reflexivity.
  - unfold put_all in *. cbn [for_each]. unfold bind at 1.
    rewrite queue_put_nowait_spec, IH. reflexivity.
Qed.

Lemma get_n_spec (n : nat) :
  forall m : Machine,
    List.length (queue (self m)) = n ->
    get_n lt n m =
    (Ret (Heapq.pop_n lt n (queue (self m))),
     {| self := with_queue [] (self m); tick := tick m |}, []).
Proof.
  induction n as [|n IH]; intros m Hlen.
  - destruct m as [[? ? ? ? ? q] ?]. cbn in Hlen. destruct q; [reflexivity | discriminate].
  - cbn [get_n Heapq.pop_n]. unfold bind at 1. unfold queue_get, bind at 1. cbn [get_self].
    destruct (Heapq.heappop lt (queue (self m))) as [[x q]|] eqn:Hpop.
    + pose proof (heappop_perm _ _ _ _ Hpop) as Hperm.
      apply Permutation_length in Hperm. cbn in Hperm.
      cbn [modify ret bind]. unfold bind at 1.
      rewrite IH by (cbn; lia). reflexivity.
    + apply heappop_None in Hpop. rewrite Hpop in Hlen. discriminate.
Qed.

(** Filling an empty queue and emptying it again. *)
Lemma put_then_get (items : list SortableTuple) (m : Machine) :
  queue (self m) = [] ->
  (put_all lt items ;;; get_n lt (List.length items)) m =
  (Ret (Heapq.pop_all lt (Heapq.push_all lt [] items)),
   {| self := with_queue [] (self m); tick := tick m |}, []).
Proof.
  intros Hq. unfold bind. rewrite put_all_spec, Hq.
  assert (Hlen : List.length (Heapq.push_all lt [] items) = List.length items).
  { apply Permutation_length. rewrite push_all_perm. reflexivity. }
  rewrite get_n_spec by exact Hlen. cbn. unfold Heapq.pop_all. rewrite Hlen. reflexivity.
Qed.

End QueueFacts.

Lemma str_eqb_eq (a b : Py.str) : Py.str_eqb a b = true <-> a = b.
Proof.
  unfold Py.str_eqb. rewrite bool_decide_eq_true. destruct a, b. cbn.
  split; congruence.
Qed.

Lemma str_eqb_neq (a b : Py.str) : Py.str_eqb a b = false <-> a <> b.
Proof.
  rewrite <- str_eqb_eq. destruct (Py.str_eqb a b); split; congruence.
Qed.

Section QueueClaims.
Variable lt : SortableTuple -> SortableTuple -> bool.

(** C3, as the code has it: whatever order [SortableTuple] defines, the
    worker dequeues exactly the items that were enqueued, each once (the
    dequeue order is a permutation of the insertion order); and when the
    order compares priorities alone, up to three queued items of equal
    priority are dequeued in insertion order. *)
Theorem C3_dequeue_is_permutation (items : list SortableTuple) (m : Machine) :
  queue (self m) = [] ->
  (exists out m',
      (put_all lt items ;;; get_n lt (List.length items)) m = (Ret out, m', [])
      /\ out ≡ₚ items)
  /\ (forall priority : Z,
        Forall (fun item : SortableTuple => item.1.1 = priority) items ->
        (List.length items <= 3)%nat ->
        exists m',
          (put_all lt_priority items ;;; get_n lt_priority (List.length items)) m
          = (Ret items, m', [])).
Proof.
  intros Hq. split.
  - eexists _, _. split; [apply put_then_get; exact Hq |].
    rewrite pop_all_perm, push_all_perm. reflexivity.
  - intros priority Hprio Hlen. eexists.
    rewrite (put_then_get lt_priority items m Hq).
    assert (Hlt : forall x y, x ∈ items -> y ∈ items -> lt_priority x y = false).
    { intros x y Hx Hy. rewrite Forall_forall in Hprio. unfold lt_priority.
      rewrite (Hprio x Hx), (Hprio y Hy). apply Z.ltb_irrefl. }
    rewrite push_all_append by exact Hlt.
    rewrite pop_all_fifo3 by assumption. reflexivity.
Qed.

(** C5: [event] puts the raw event on the queue exactly when its codes
    are major 37, or major 2 with minor 6, or major 40 with a minor among
    0..5; otherwise it leaves the queue, and the whole object, as it was. *)
Theorem C5_event_enqueued_iff_critical (raw : RawEvent) (major minor : Z)
    (major_text minor_text : string) (m : Machine) :
  raw !! "major" = Some (major, major_text) ->
  raw !! "minor" = Some (minor, minor_text) ->
  exists m',
    event lt raw m = (Ret tt, m', [])
    /\ (critical_codes major minor -> m' = enqueued lt (2, "event", PRaw raw) m)
    /\ (~ critical_codes major minor -> m' = m)
    /\ (List.length (queue (self m')) = S (List.length (queue (self m)))
        <-> critical_codes major minor).
Proof.
  intros Hmajor Hminor. unfold event, bind, subscript. rewrite Hmajor, Hminor.
  cbn [ret fst snd]. unfold critical_codes.
  destruct (major =? 37) eqn:H37.
  { apply Z.eqb_eq in H37. exists (enqueued lt (2, "event", PRaw raw) m).
    split; [reflexivity |]. split; [reflexivity |]. split; [tauto |].
    rewrite enqueued_length. tauto. }
  apply Z.eqb_neq in H37.
  destruct (major =? 2) eqn:H2.
  { apply Z.eqb_eq in H2. destruct (minor =? 6) eqn:H6.
    - apply Z.eqb_eq in H6. exists (enqueued lt (2, "event", PRaw raw) m).
      split; [reflexivity |]. split; [reflexivity |]. split; [tauto |].
      rewrite enqueued_length. tauto.
    - apply Z.eqb_neq in H6. replace (major =? 40) with false by (symmetry; apply Z.eqb_neq; lia).
      exists m. split; [reflexivity |]. split; [intros; exfalso; lia |].
      split; [reflexivity |]. split; [lia | intros; exfalso; lia]. }
  apply Z.eqb_neq in H2.
  destruct (major =? 40) eqn:H40.
  { apply Z.eqb_eq in H40.
    destruct (existsb (Z.eqb minor) [0; 1; 2; 3; 4; 5]) eqn:Hin.
    - assert (In minor [0; 1; 2; 3; 4; 5]).
      { apply existsb_exists in Hin as (x & Hx & Heq). apply Z.eqb_eq in Heq. subst x. exact Hx. }
      exists (enqueued lt (2, "event", PRaw raw) m).
      split; [reflexivity |]. split; [reflexivity |]. split; [tauto |].
      rewrite enqueued_length. tauto.
    - assert (~ In minor [0; 1; 2; 3; 4; 5]).
      { intros Hx. assert (existsb (Z.eqb minor) [0; 1; 2; 3; 4; 5] = true) as Ht.
        { apply existsb_exists. exists minor. split; [exact Hx | apply Z.eqb_refl]. }
        congruence. }
      exists m. split; [reflexivity |]. split; [intros; exfalso; intuition lia |].
      split; [reflexivity |]. split; [lia | intros; exfalso; intuition lia]. }
  apply Z.eqb_neq in H40.
  exists m. split; [reflexivity |]. split; [intros; exfalso; lia |].
  split; [reflexivity |]. split; [lia | intros; exfalso; lia].
Qed.

(** C6: [notify] puts the notification on the queue exactly when its
    source is not this channel's name, "gsm", and its level is CRITICAL or
    more; otherwise it leaves the queue, and the whole object, as it was. *)
Theorem C6_notify_enqueued_iff (source message : Py.str) (level : Z) (m : Machine) :
  exists m',
    notify lt source message level m = (Ret tt, m', [])
    /\ (source <> "gsm" /\ CRITICAL <= level ->
        m' = enqueued lt (2, "notify", PNotify source message level) m)
    /\ (~ (source <> "gsm" /\ CRITICAL <= level) -> m' = m)
    /\ (List.length (queue (self m')) = S (List.length (queue (self m)))
        <-> source <> "gsm" /\ CRITICAL <= level).
Proof.
  unfold notify, name.
  destruct (Py.str_eqb source "gsm") eqn:Hsrc.
  { apply str_eqb_eq in Hsrc. exists m. split; [reflexivity |].
    split; [tauto |]. split; [reflexivity |]. split; [lia | tauto]. }
  apply str_eqb_neq in Hsrc.
  destruct (level <? CRITICAL) eqn:Hlevel.
  { apply Z.ltb_lt in Hlevel. exists m. split; [reflexivity |].
    split; [intros; exfalso; lia |]. split; [reflexivity |]. split; [lia | intros; exfalso; lia]. }
  apply Z.ltb_ge in Hlevel.
  exists (enqueued lt (2, "notify", PNotify source message level) m). split; [reflexivity |]. split; [reflexivity |]. split; [tauto |].
  rewrite enqueued_length. tauto.
Qed.

End QueueClaims.

(** ** The serial side *)

Section SerialFacts.
Variable cfg : Config.
Variable world : World.

Lemma same_registrations_refl (m : Machine) : same_registrations m m.
Proof. repeat split. Qed.

Lemma same_registrations_self (m m' : Machine) :
  self m' = self m -> same_registrations m m'.
Proof. unfold same_registrations. intros ->. repeat split. Qed.

Lemma same_registrations_trans (m1 m2 m3 : Machine) :
  same_registrations m1 m2 -> same_registrations m2 m3 -> same_registrations m1 m3.
Proof. unfold same_registrations. intros (? & ? & ? & ?) (? & ? & ? & ?). repeat split; congruence. Qed.

Lemma written_app (tr1 tr2 : list Event) : written (tr1 ++ tr2) = written tr1 ++ written tr2.
Proof.
  induction tr1 as [|e tr1 IH]; [reflexivity |].
  destruct e; cbn; rewrite ?IH; reflexivity.
Qed.

Lemma connect_event_port (tr : list Event) :
  Forall (fun e => is_connect_event e = true) tr -> Forall (fun e => is_port_event e = true) tr.
Proof. intros H. eapply Forall_impl; [exact H |]. intros []; cbn; congruence. Qed.

(** The initialisation loop leaves the object alone and writes the
    commands in order, all of them when it returns [True] and the first
    ones up to the one that failed otherwise. *)
Lemma init_loop_spec (cmds : list string) :
  forall m : Machine,
    let '(r, m', tr) := init_loop world cmds m in
    self m' = self m
    /\ Forall (fun e => is_connect_event e = true) tr
    /\ ((r = Ret true /\ written tr = cmds)
        \/ ((r = Ret false \/ exists e, r = Raise e) /\ written tr `prefix_of` cmds)).
Proof.
  induction cmds as [|command cmds IH]; intros m; cbn [init_loop].
  - cbn. repeat split; [constructor | left; split; reflexivity].
  - unfold bind at 1. cbn [get_self]. unfold bind at 1, port_write_call.
    destruct (port (self m)) as [p|]; cbn [raise].
    + unfold bind at 1. cbn [next_tick].
      destruct (port_write world (tick m) p command) as [n|]; unfold bind at 1; cbn [emit ret raise].
      * destruct (n =? 0).
        -- cbn. repeat split; [repeat constructor |].
           right. split; [left; reflexivity |]. exists cmds. reflexivity.
        -- specialize (IH {| self := self m; tick := S (tick m) |}).
           destruct (init_loop world cmds _) as [[r m'] tr]. cbn in IH |- *.
           destruct IH as (Hself & Hev & Hres).
           split; [exact Hself |]. split; [constructor; [reflexivity | exact Hev] |].
           destruct Hres as [[-> Hw] | [Hr Hw]].
           ++ left. split; [reflexivity | congruence].
           ++ right. split; [exact Hr |]. apply prefix_cons. exact Hw.
      * cbn. repeat split; [repeat constructor |].
        right. split; [right; eexists; reflexivity |]. exists cmds. reflexivity.
    + cbn. repeat split; [constructor |].
      right. split; [right; eexists; reflexivity |]. apply prefix_nil.
Qed.

Lemma append_assoc (a b c : string) : (a +:+ b) +:+ c = a +:+ (b +:+ c).
Proof.
  induction a as [|x a IH]; [reflexivity |].
  change (String x ((a +:+ b) +:+ c) = String x (a +:+ (b +:+ c))). f_equal. exact IH.
Qed.

Lemma append_nil_r (a : string) : a +:+ EmptyString = a.
Proof.
  induction a as [|x a IH]; [reflexivity |].
  change (String x (a +:+ EmptyString) = String x a). f_equal. exact IH.
Qed.

(** [connected]: with the flag set it does nothing; otherwise it opens the
    device and writes the initialisation commands, all five when it
    returns [True], and leaves the flag down when it returns [False]. *)
Lemma connected_spec (m : Machine) :
  let '(r, m', tr) := connected cfg world m in
  same_registrations m m'
  /\ Forall (fun e => is_connect_event e = true) tr
  /\ (if modem_connected (self m)
      then r = Ret true /\ m' = m /\ tr = []
      else (r = Ret true /\ modem_connected (self m') = true
            /\ is_Some (port (self m')) /\ written tr = commands)
           \/ (r = Ret false /\ modem_connected (self m') = false
               /\ written tr `prefix_of` commands)).
Proof.
  unfold connected. unfold bind at 1. cbn [get_self].
  destruct (modem_connected (self m)) eqn:Hflag.
  { cbn. split; [apply same_registrations_refl |]. split; [constructor |]. repeat split. }
  unfold bind at 1, try_except, Serial. unfold bind at 1. unfold bind at 1. cbn [next_tick].
  destruct (serial_Serial world (tick m) (GSM_MODEM_PORT cfg) (GSM_MODEM_BAUDRATE cfg)).
  - unfold bind at 1. cbn [emit ret]. unfold bind at 1. cbn [modify].
    pose proof (init_loop_spec commands
                  {| self := with_port (Some (tick m)) (self m); tick := S (tick m) |}) as Hinit.
    destruct (init_loop world commands _) as [[r m1] tr]. cbn in Hinit.
    destruct Hinit as (Hself & Hev & Hres).
    assert (Hreg : same_registrations m m1).
    { unfold same_registrations. rewrite Hself. cbn. repeat split. }
    destruct Hres as [[-> Hw] | [[-> | [e ->]] Hw]]; cbn; rewrite ?app_nil_r;
      (split; [exact Hreg |]); (split; [constructor; [reflexivity | exact Hev] |]).
    + left. rewrite Hself. cbn. repeat split; [eexists; reflexivity | exact Hw].
    + right. rewrite Hself. cbn. repeat split; [exact Hflag | exact Hw].
    + right. rewrite Hself. cbn. repeat split; [exact Hflag | exact Hw].
  - cbn. split; [apply same_registrations_self; reflexivity |]. split; [repeat constructor |].
    right. repeat split; [exact Hflag | apply prefix_nil].
Qed.

(** The drain loop returns what its successful reads returned, writes
    nothing, and ends without an exception on a script that has none. *)
Lemma drain_loop_spec (p : Port) (script : list poll) :
  forall data : string,
    let '((d, e), tr) := drain_loop p script data in
    d = data +:+ bytes_read tr
    /\ Forall (fun e => is_port_event e = true) tr
    /\ written tr = []
    /\ (script_ok script = true -> e = None).
Proof.
  induction script as [|[n r|] script IH]; intros data; cbn [drain_loop script_ok].
  - cbn. rewrite append_nil_r. repeat split. repeat constructor.
  - destruct (n >? 0).
    + destruct r as [b|].
      * specialize (IH (data +:+ b)). destruct (drain_loop p script (data +:+ b)) as [[d e] tr].
        destruct IH as (Hd & Hev & Hw & Hok). cbn.
        rewrite Hd, append_assoc. repeat split; [repeat constructor; exact Hev | exact Hw | exact Hok].
      * cbn. rewrite append_nil_r. repeat split; [repeat constructor | discriminate].
    + cbn. rewrite append_nil_r. repeat split. repeat constructor.
  - cbn. rewrite append_nil_r. repeat split; [repeat constructor | discriminate].
Qed.

(** Text that came out of [decode('latin-1')] goes back into the bytes it
    came from. *)
Lemma encode_decode (b : string) : Py.encode (Py.decode b) = Some b.
Proof.
  unfold Py.encode, Py.decode. cbn [Py.code_points].
  assert (Hall : forallb (fun c => (c <? 256)%N) (map N_of_ascii (list_ascii_of_string b)) = true).
  { apply forallb_forall. intros c Hc. apply in_map_iff in Hc as (a & <- & _).
    apply N.ltb_lt. apply N_ascii_bounded. }
  rewrite Hall, map_map. f_equal. clear Hall.
  rewrite <- (string_of_list_ascii_of_string b) at 2. f_equal.
  induction (list_ascii_of_string b) as [|a l IH]; [reflexivity |].
  cbn [map]. rewrite ascii_N_embedding, IH. reflexivity.
Qed.

Lemma list_ascii_app (a b : string) :
  list_ascii_of_string (a +:+ b) = list_ascii_of_string a ++ list_ascii_of_string b.
Proof.
  induction a as [|x a IH]; [reflexivity |].
  change (x :: list_ascii_of_string (a +:+ b) = x :: (list_ascii_of_string a ++ list_ascii_of_string b)).
  f_equal. exact IH.
Qed.

Lemma decode_app (a b : string) : Py.add (Py.decode a) (Py.decode b) = Py.decode (a +:+ b).
Proof. unfold Py.add, Py.decode. cbn [Py.code_points]. rewrite list_ascii_app, map_app. reflexivity. Qed.

(** The line of a message that is latin-1 text. *)
Lemma encode_line (message : string) :
  Py.encode (Py.add message Py.CRLF) = Some (message +:+ Py.CRLF).
Proof. rewrite decode_app. apply encode_decode. Qed.

(** The [try] block of [write]: it leaves the object alone, hands the one
    line to the port when the message can be encoded and nothing
    otherwise, and when an exception ends it the data is what had been
    read until then, still as bytes. *)
Lemma write_try_text (message : Py.str) (m : Machine) :
  let '(r, m', tr) := write_try world message m in
  self m' = self m
  /\ Forall (fun e => is_port_event e = true) tr
  /\ exists data e,
      r = Ret (data, e)
      /\ (is_Some (port (self m)) ->
          written tr = option_list (Py.encode (Py.add message Py.CRLF)))
      /\ (port (self m) = None \/ Py.encode (Py.add message Py.CRLF) = None ->
          tr = [] /\ data = PyBytes EmptyString /\ e <> None)
      /\ (e <> None -> data = PyBytes (bytes_read tr))
      /\ (e = None -> exists s, data = PyStr s)
      /\ (steady world -> is_Some (port (self m)) ->
          is_Some (Py.encode (Py.add message Py.CRLF)) -> e = None).
Proof.
  unfold write_try, attempt, port_write_line, port_write_call, drain, sleep, bind, get_self,
    next_tick, emit, ret, raise.
  destruct (port (self m)) as [p|] eqn:Hport; cbn -[drain_loop]; rewrite ?Hport.
  - destruct (Py.encode (Py.add message Py.CRLF)) as [line|] eqn:Hline;
      cbn -[drain_loop]; rewrite ?Hport; cbn [tick self].
    2:{ repeat split; [constructor |].
        exists (PyBytes EmptyString), (Some UnicodeEncodeError).
        repeat split; [discriminate | discriminate | intros _ _ [? [=]]]. }
    assert (Hnot : ~ (@None Port = Some p \/ Some line = @None string))
      by (intros [? | ?]; discriminate).
    destruct (port_write world (tick m) p line) as [n|] eqn:Hwrite;
      cbn -[drain_loop]; rewrite ?Hport; cbn [tick self].
    + pose proof (drain_loop_spec p (port_pending world (S (tick m)) p) EmptyString) as Hdrain.
      destruct (drain_loop p (port_pending world (S (tick m)) p) EmptyString) as [[d e] tr].
      destruct Hdrain as (Hd & Hev & Hw & Hok). change (d = bytes_read tr) in Hd.
      destruct e as [e|]; cbn; rewrite ?app_nil_r.
      * split; [reflexivity |]. split; [repeat constructor; exact Hev |].
        exists (PyBytes d), (Some e).
        split; [reflexivity |]. split; [intros _; rewrite Hw; reflexivity |].
        split; [intros [? | ?]; discriminate |]. split; [intros _; rewrite Hd; reflexivity |].
        split; [discriminate |].
        intros [_ Hsteady] _ _. specialize (Hok (Hsteady _ _)). discriminate.
      * split; [reflexivity |]. split; [repeat constructor; exact Hev |].
        exists (PyStr (Py.bytes_strip d)), None.
        split; [reflexivity |]. split; [intros _; rewrite Hw; reflexivity |].
        split; [intros [? | ?]; discriminate |]. split; [congruence |].
        split; [eexists; reflexivity | reflexivity].
    + split; [reflexivity |]. split; [repeat constructor |].
      exists (PyBytes EmptyString), (Some SerialException).
      split; [reflexivity |]. split; [reflexivity |].
      split; [intros [? | ?]; discriminate |].
      split; [reflexivity |]. split; [discriminate |].
      intros [Hsteady _] _ _. destruct (Hsteady _ _ _ Hwrite).
  - split; [reflexivity |]. split; [constructor |].
    exists (PyBytes EmptyString), (Some AttributeError).
    split; [reflexivity |]. split; [intros [? [=]] |].
    split; [intros _; repeat split; discriminate |].
    split; [reflexivity |]. split; [discriminate | intros _ [? [=]]].
Qed.

(** [write] always returns, touches neither the registrations nor the
    queue, and does nothing outside the serial side. *)
Lemma write_spec (message : Py.str) (m : Machine) :
  let '(r, m', tr) := write cfg world message m in
  (exists data, r = Ret data)
  /\ same_registrations m m'
  /\ Forall (fun e => is_port_event e = true) tr.
Proof.
  unfold write. unfold bind at 1.
  pose proof (connected_spec m) as Hconn.
  destruct (connected cfg world m) as [[r1 m1] tr1].
  destruct Hconn as (Hreg1 & Hev1 & Hres1). apply connect_event_port in Hev1.
  assert (Hr1 : r1 = Ret true \/ r1 = Ret false).
  { destruct (modem_connected (self m)); [left; tauto | destruct Hres1; tauto]. }
  destruct Hr1 as [-> | ->]; cbn [negb].
  - unfold bind at 1.
    pose proof (write_try_text message m1) as Htry.
    destruct (write_try world message m1) as [[r2 m2] tr2].
    destruct Htry as (Hself2 & Hev2 & data & e & -> & _).
    assert (Hreg2 : same_registrations m m2).
    { eapply same_registrations_trans; [exact Hreg1 | apply same_registrations_self; exact Hself2]. }
    destruct e as [e|]; cbn; rewrite ?app_nil_r.
    + split; [eexists; reflexivity |]. split; [| apply Forall_app; split; assumption].
      destruct Hreg2 as (? & ? & ? & ?). repeat split; assumption.
    + split; [eexists; reflexivity |]. split; [exact Hreg2 | apply Forall_app; split; assumption].
  - cbn. rewrite app_nil_r. split; [eexists; reflexivity |]. split; assumption.
Qed.

(** On a connected channel with a steady device, [write] hands its one
    line to the port, returns the decoded answer and leaves the object as
    it was. *)
Lemma write_steady_text (message : Py.str) (line : string) (m : Machine) :
  Py.encode (Py.add message Py.CRLF) = Some line ->
  steady world -> modem_connected (self m) = true -> is_Some (port (self m)) ->
  let '(r, m', tr) := write cfg world message m in
  (exists s, r = Ret (PyStr s))
  /\ self m' = self m
  /\ written tr = [line].
Proof.
  intros Hline Hsteady Hflag Hport. unfold write. unfold bind at 1.
  pose proof (connected_spec m) as Hconn.
  destruct (connected cfg world m) as [[r1 m1] tr1].
  rewrite Hflag in Hconn. destruct Hconn as (_ & _ & -> & -> & ->). cbn [negb].
  unfold bind at 1.
  pose proof (write_try_text message m) as Htry.
  destruct (write_try world message m) as [[r2 m2] tr2].
  destruct Htry as (Hself2 & _ & data & e & -> & Hw & _ & _ & Hstr & Hnone).
  rewrite Hline in Hw, Hnone.
  rewrite (Hnone Hsteady Hport ltac:(eexists; reflexivity)) in *.
  destruct (Hstr eq_refl) as [s ->].
  cbn. rewrite app_nil_r. split; [eexists; reflexivity |]. split; [exact Hself2 | exact (Hw Hport)].
Qed.

Lemma write_steady (message : string) (m : Machine) :
  steady world -> modem_connected (self m) = true -> is_Some (port (self m)) ->
  let '(r, m', tr) := write cfg world message m in
  (exists s, r = Ret (PyStr s))
  /\ self m' = self m
  /\ written tr = [message +:+ Py.CRLF].
Proof. exact (write_steady_text message _ m (encode_line message)). Qed.

(** Whatever the device does, the lines [write] hands to the port are
    initialisation commands and, when it can be encoded, the line of the
    message. *)
Lemma write_lines (message : Py.str) (m : Machine) :
  Forall (fun l => In l commands \/ Py.encode (Py.add message Py.CRLF) = Some l)
    (written (write cfg world message m).2).
Proof.
  unfold write. unfold bind at 1.
  pose proof (connected_spec m) as Hconn.
  destruct (connected cfg world m) as [[r1 m1] tr1].
  destruct Hconn as (_ & _ & Hres1).
  assert (Hcmds : Forall (fun l => In l commands
                                   \/ Py.encode (Py.add message Py.CRLF) = Some l)
                    (written tr1)).
  { assert (Hpre : written tr1 `prefix_of` commands).
    { destruct (modem_connected (self m)).
      - destruct Hres1 as (_ & _ & ->). apply prefix_nil.
      - destruct Hres1 as [(_ & _ & _ & ->) | (_ & _ & Hpre)]; [reflexivity | exact Hpre]. }
    destruct Hpre as [rest Hrest]. apply Forall_forall. intros l Hl. left.
    apply list_elem_of_In. rewrite Hrest. apply elem_of_app. left. exact Hl. }
  assert (Hr1 : r1 = Ret true \/ r1 = Ret false).
  { destruct (modem_connected (self m)); [left; tauto | destruct Hres1; tauto]. }
  destruct Hr1 as [-> | ->]; cbn [negb].
  - unfold bind at 1.
    pose proof (write_try_text message m1) as Htry.
    destruct (write_try world message m1) as [[r2 m2] tr2].
    destruct Htry as (_ & _ & data & e & -> & Hw & Hno & _).
    assert (Hline : Forall (fun l => In l commands
                                     \/ Py.encode (Py.add message Py.CRLF) = Some l)
                      (written tr2)).
    { destruct (port (self m1)) as [p|].
      - rewrite (Hw ltac:(eexists; reflexivity)).
        destruct (Py.encode (Py.add message Py.CRLF)) as [line|]; cbn [option_list];
          [|constructor].
        constructor; [right; reflexivity | constructor].
      - destruct (Hno (or_introl eq_refl)) as (-> & _). constructor. }
    destruct e as [e|]; cbn; rewrite ?app_nil_r, written_app; apply Forall_app; split; assumption.
  - cbn. rewrite app_nil_r. exact Hcmds.
Qed.





(** [send_sms] is three writes. *)
Lemma send_sms_spec (dst : string) (message : Py.str) (m : Machine) :
  let '(r, m', tr) := send_sms cfg world dst message m in
  r = Ret tt
  /\ same_registrations m m'
  /\ Forall (fun e => is_port_event e = true) tr.
Proof.
  unfold send_sms.
  unfold bind at 1. pose proof (write_spec ("AT+CMGS=" +:+ Py.dquote +:+ dst +:+ Py.dquote) m) as H1.
  destruct (write cfg world _ m) as [[r1 m1] tr1]. destruct H1 as ([d1 ->] & Hreg1 & Hev1).
  unfold bind at 1. pose proof (write_spec message m1) as H2.
  destruct (write cfg world message m1) as [[r2 m2] tr2]. destruct H2 as ([d2 ->] & Hreg2 & Hev2).
  unfold bind at 1. pose proof (write_spec (Py.SUB +:+ Py.CRLF) m2) as H3.
  destruct (write cfg world _ m2) as [[r3 m3] tr3]. destruct H3 as ([d3 ->] & Hreg3 & Hev3).
  cbn. rewrite app_nil_r. split; [reflexivity |].
  split; [repeat (eapply same_registrations_trans; [eassumption |]); apply same_registrations_refl |].
  repeat (apply Forall_app; split); assumption.
Qed.

Lemma send_sms_steady_text (dst : string) (message : Py.str) (line : string) (m : Machine) :
  Py.encode (Py.add message Py.CRLF) = Some line ->
  steady world -> modem_connected (self m) = true -> is_Some (port (self m)) ->
  let '(r, m', tr) := send_sms cfg world dst message m in
  r = Ret tt /\ self m' = self m /\ written tr = sms_frame dst line.
Proof.
  intros Hline Hsteady Hflag Hport. unfold send_sms.
  unfold bind at 1.
  pose proof (write_steady ("AT+CMGS=" +:+ Py.dquote +:+ dst +:+ Py.dquote) m Hsteady Hflag Hport) as H1.
  destruct (write cfg world _ m) as [[r1 m1] tr1]. destruct H1 as ([d1 ->] & Hself1 & Hw1).
  unfold bind at 1.
  pose proof (write_steady_text message line m1 Hline Hsteady) as H2. rewrite Hself1 in H2.
  specialize (H2 Hflag Hport).
  destruct (write cfg world message m1) as [[r2 m2] tr2]. destruct H2 as ([d2 ->] & Hself2 & Hw2).
  unfold bind at 1.
  pose proof (write_steady (Py.SUB +:+ Py.CRLF) m2 Hsteady) as H3. rewrite Hself2 in H3.
  specialize (H3 Hflag Hport).
  destruct (write cfg world _ m2) as [[r3 m3] tr3]. destruct H3 as ([d3 ->] & Hself3 & Hw3).
  cbn. rewrite app_nil_r, !written_app, Hw1, Hw2, Hw3.
  split; [reflexivity |]. split; [congruence | reflexivity].
Qed.

Lemma send_sms_steady (dst message : string) (m : Machine) :
  steady world -> modem_connected (self m) = true -> is_Some (port (self m)) ->
  let '(r, m', tr) := send_sms cfg world dst message m in
  r = Ret tt /\ self m' = self m /\ written tr = sms_lines dst message.
Proof. exact (send_sms_steady_text dst message _ m (encode_line message)). Qed.

(** Whatever the device does, the lines of [send_sms] are initialisation
    commands, its header, its terminator and, when it can be encoded, the
    line of the text. *)
Lemma send_sms_lines (dst : string) (message : Py.str) (m : Machine) :
  Forall (fun l => In l commands
                   \/ l = (Py.SUB +:+ Py.CRLF) +:+ Py.CRLF
                   \/ l = ("AT+CMGS=" +:+ Py.dquote +:+ dst +:+ Py.dquote) +:+ Py.CRLF
                   \/ Py.encode (Py.add message Py.CRLF) = Some l)
    (written (send_sms cfg world dst message m).2).
Proof.
  unfold send_sms.
  unfold bind at 1.
  pose proof (write_lines ("AT+CMGS=" +:+ Py.dquote +:+ dst +:+ Py.dquote) m) as H1.
  pose proof (write_spec ("AT+CMGS=" +:+ Py.dquote +:+ dst +:+ Py.dquote) m) as S1.
  destruct (write cfg world _ m) as [[r1 m1] tr1]. destruct S1 as ([d1 ->] & _). cbn [snd] in H1.
  unfold bind at 1.
  pose proof (write_lines message m1) as H2. pose proof (write_spec message m1) as S2.
  destruct (write cfg world message m1) as [[r2 m2] tr2]. destruct S2 as ([d2 ->] & _).
  cbn [snd] in H2.
  unfold bind at 1.
  pose proof (write_lines (Py.SUB +:+ Py.CRLF) m2) as H3.
  pose proof (write_spec (Py.SUB +:+ Py.CRLF) m2) as S3.
  destruct (write cfg world _ m2) as [[r3 m3] tr3]. destruct S3 as ([d3 ->] & _).
  cbn [snd] in H3.
  cbn. rewrite app_nil_r, !written_app. rewrite !encode_line in *.
  repeat (apply Forall_app; split).
  - eapply Forall_impl; [exact H1 |]. intros l [Hl | [= <-]]; tauto.
  - eapply Forall_impl; [exact H2 |]. intros l [Hl | Hl]; tauto.
  - eapply Forall_impl; [exact H3 |]. intros l [Hl | [= <-]]; tauto.
Qed.

End SerialFacts.

(** ** The SMS command processor *)

Section CommandFacts.
Variable cfg : Config.
Variable world : World.

Lemma port_trace_projections (tr : list Event) :
  Forall (fun e => is_port_event e = true) tr ->
  alarm_calls tr = [] /\ notifications tr = [].
Proof.
  induction 1 as [|e tr He _ [IHa IHn]]; [split; reflexivity |].
  unfold alarm_calls, notifications in *. cbn. rewrite IHa, IHn.
  unfold is_port_event in He. apply andb_true_iff in He as [Hn Ha].
  apply negb_true_iff in Hn, Ha. rewrite Hn, Ha. split; reflexivity.
Qed.

Lemma handler_notify_spec (source message : string) (level : Z) (m : Machine) :
  is_Some (notification_handler (self m)) ->
  handler_notify source message level m = (Ret tt, m, [Notify source message level]).
Proof. intros [h Hh]. unfold handler_notify, bind. cbn. rewrite Hh. reflexivity. Qed.

(** No path of [send_command] returns a value: the result is Python's
    [None], the object is untouched, and at most one alarm method ran. *)
Lemma send_command_returns_None (message : string) (m : Machine) :
  exists tr,
    send_command message m = (Ret None, m, tr)
    /\ (List.length tr <= 1)%nat
    /\ Forall (fun e => is_alarm_call e = true) tr.
Proof.
  unfold send_command.
  destruct (Py.split " " message) as [|t0 [|t1 [|t2 [|t3 tokens]]]];
    try (exists []; repeat split; [cbn; lia | constructor]).
  unfold bind at 1. cbn [get_self].
  destruct (alarm (self m)) as [a|]; [|exists []; repeat split; [cbn; lia | constructor]].
  destruct (String.eqb (Py.lower t0) "zone").
  { destruct (normalize_payload t2) as [c|]; cbn [command_in negb].
    - destruct (Py.str_in c zone_commands); cbn [negb].
      + eexists. split; [reflexivity |]. split; [cbn; lia | repeat constructor].
      + exists []. repeat split; [cbn; lia | constructor].
    - exists []. repeat split; [cbn; lia | constructor]. }
  destruct (String.eqb (Py.lower t0) "partition").
  { destruct (normalize_payload t2) as [c|]; cbn [command_in negb].
    - destruct (Py.str_in c partition_commands); cbn [negb].
      + eexists. split; [reflexivity |]. split; [cbn; lia | repeat constructor].
      + exists []. repeat split; [cbn; lia | constructor].
    - exists []. repeat split; [cbn; lia | constructor]. }
  destruct (String.eqb (Py.lower t0) "output").
  { destruct (normalize_payload t2) as [c|]; cbn [command_in negb].
    - destruct (Py.str_in c output_commands); cbn [negb].
      + eexists. split; [reflexivity |]. split; [cbn; lia | repeat constructor].
      + exists []. repeat split; [cbn; lia | constructor].
    - exists []. repeat split; [cbn; lia | constructor]. }
  exists []. repeat split; [cbn; lia | constructor].
Qed.

(** A command whose action is not allowed for its element type reaches no
    alarm method. *)
Lemma send_command_rejects (body t0 t1 t2 : string) (m : Machine) :
  Py.split " " body = [t0; t1; t2] ->
  (Py.lower t0 = "zone" /\ command_in (normalize_payload t2) zone_commands = false)
  \/ (Py.lower t0 = "partition"
      /\ command_in (normalize_payload t2) partition_commands = false)
  \/ (Py.lower t0 = "output" /\ command_in (normalize_payload t2) output_commands = false) ->
  send_command body m = (Ret None, m, []).
Proof.
  intros Hsplit Hcase. unfold send_command. rewrite Hsplit. unfold bind at 1. cbn [get_self].
  destruct (alarm (self m)) as [a|]; [|reflexivity].
  destruct Hcase as [[-> ->] | [[-> ->] | [-> ->]]]; reflexivity.
Qed.

End CommandFacts.

Section CommandClaims.
Variable cfg : Config.
Variable world : World.

(** C8: a message from a listed contact, with three tokens and a known
    element type, whose normalised action is not allowed for that type,
    reaches no alarm method; the channel echoes it, sends the sender the
    SMS "REJECTED: <body>" and reports the rejection. On a connected
    channel with a steady modem the three lines of that SMS are what goes
    out on the port. *)
Theorem C8_invalid_action_rejected (timestamp : datetime)
    (source body t0 t1 t2 : string) (m : Machine) :
  is_Some (alarm (self m)) ->
  is_Some (notification_handler (self m)) ->
  Py.str_in source (GSM_CONTACTS cfg) = true ->
  Py.split " " body = [t0; t1; t2] ->
  (Py.lower t0 = "zone" /\ command_in (normalize_payload t2) zone_commands = false)
  \/ (Py.lower t0 = "partition"
      /\ command_in (normalize_payload t2) partition_commands = false)
  \/ (Py.lower t0 = "output" /\ command_in (normalize_payload t2) output_commands = false) ->
  let '(r, m', tr) := handle_message cfg world timestamp source body m in
  r = Ret tt
  /\ alarm_calls tr = []
  /\ notifications tr =
       [Notify "gsm" (source +:+ ": " +:+ body) INFO;
        Notify "gsm" ("REJECTED: " +:+ source +:+ ": " +:+ body) INFO]
  /\ (exists tr_sms,
        send_sms cfg world source ("REJECTED: " +:+ body) m = (Ret tt, m', tr_sms)
        /\ tr = Notify "gsm" (source +:+ ": " +:+ body) INFO :: tr_sms
                ++ [Notify "gsm" ("REJECTED: " +:+ source +:+ ": " +:+ body) INFO])
  /\ (steady world -> modem_connected (self m) = true -> is_Some (port (self m)) ->
      written tr = sms_lines source ("REJECTED: " +:+ body)).
Proof.
  intros [a Ha] Hh Hsrc Hsplit Hcase. unfold handle_message.
  unfold bind at 1. cbn [get_self]. rewrite Ha.
  unfold bind at 1. rewrite (handler_notify_spec _ _ _ _ Hh), Hsrc.
  unfold bind at 1. rewrite (send_command_rejects _ _ _ _ _ Hsplit Hcase). cbn [truthy].
  unfold bind at 1.
  pose proof (send_sms_spec cfg world source ("REJECTED: " +:+ body) m) as Hsms.
  pose proof (send_sms_steady cfg world source ("REJECTED: " +:+ body) m) as Hsteady.
  destruct (send_sms cfg world source ("REJECTED: " +:+ body) m) as [[r1 m1] tr1].
  destruct Hsms as (-> & Hreg & Hev).
  assert (Hh1 : is_Some (notification_handler (self m1))).
  { destruct Hreg as (_ & -> & _). exact Hh. }
  rewrite (handler_notify_spec _ _ _ _ Hh1).
  destruct (port_trace_projections _ Hev) as [Hcalls Hnotes].
  cbn [app]. split; [reflexivity |].
  split. { unfold alarm_calls in *. cbn. rewrite List.filter_app, Hcalls. reflexivity. }
  split. { unfold notifications in *. cbn. rewrite List.filter_app, Hnotes. reflexivity. }
  split. { exists tr1. split; reflexivity. }
  intros Hw Hflag Hport. destruct (Hsteady Hw Hflag Hport) as (_ & _ & Hlines).
  cbn. rewrite written_app, Hlines. reflexivity.
Qed.

(** C2, as the code has it: for a sender outside the contact list, with an
    alarm and a notification handler registered, [handle_message] sends
    nothing to the modem and emits exactly two informational notifications,
    the echo of the message and the report of its rejection; the object is
    left as it was. *)
Theorem C2_unlisted_sender_two_notifications (timestamp : datetime)
    (source body : string) (m : Machine) :
  is_Some (alarm (self m)) ->
  is_Some (notification_handler (self m)) ->
  Py.str_in source (GSM_CONTACTS cfg) = false ->
  handle_message cfg world timestamp source body m =
  (Ret tt, m,
   [Notify "gsm" (source +:+ ": " +:+ body) INFO;
    Notify "gsm" ("REJECTED: " +:+ source +:+ ": " +:+ body) INFO]).
Proof.
  intros [a Ha] Hh Hsrc. unfold handle_message.
  unfold bind at 1. cbn [get_self]. rewrite Ha.
  unfold bind at 1. rewrite (handler_notify_spec _ _ _ _ Hh), Hsrc.
  rewrite (handler_notify_spec _ _ _ _ Hh). reflexivity.
Qed.

(** C7, as the code has it: with no alarm registered [handle_message]
    does nothing at all, not even the echo; with an alarm and a
    notification handler registered, the first thing it does, whatever
    follows, is to echo the message at informational severity. *)
Theorem C7_echo_needs_alarm (timestamp : datetime) (source body : string) (m : Machine) :
  (alarm (self m) = None ->
   handle_message cfg world timestamp source body m = (Ret tt, m, []))
  /\ (is_Some (alarm (self m)) ->
      is_Some (notification_handler (self m)) ->
      exists tr,
        (handle_message cfg world timestamp source body m).2
        = Notify "gsm" (source +:+ ": " +:+ body) INFO :: tr).
Proof.
  split.
  - intros Ha. unfold handle_message, bind. cbn [get_self]. rewrite Ha. reflexivity.
  - intros [a Ha] Hh. unfold handle_message.
    unfold bind at 1. cbn [get_self]. rewrite Ha.
    unfold bind at 1. rewrite (handler_notify_spec _ _ _ _ Hh).
    set (rest := if Py.str_in source (GSM_CONTACTS cfg) then _ else _).
    destruct (rest m) as [[r m'] tr]. exists tr. reflexivity.
Qed.

End CommandClaims.

(** For a listed sender the reply is always the rejection: the branch that
    answers "ACCEPTED" is never taken, because [send_command] returns
    nothing. *)
Lemma handle_message_listed (cfg : Config) (world : World) (timestamp : datetime)
    (source body : string) (m : Machine) :
  is_Some (alarm (self m)) ->
  is_Some (notification_handler (self m)) ->
  Py.str_in source (GSM_CONTACTS cfg) = true ->
  handle_message cfg world timestamp source body m =
  (handler_notify name (source +:+ ": " +:+ body) INFO ;;;
   send_command body ;;;
   send_sms cfg world source ("REJECTED: " +:+ body) ;;;
   handler_notify name ("REJECTED: " +:+ source +:+ ": " +:+ body) INFO) m.
Proof.
  intros [a Ha] Hh Hsrc. unfold handle_message, bind. cbn [get_self].
  rewrite Ha, Hsrc, !(handler_notify_spec _ _ _ m Hh).
  destruct (send_command_returns_None body m) as (tr & -> & _). cbn [truthy].
  destruct (send_sms cfg world source ("REJECTED: " +:+ body) m) as [[[u| |] m1] tr1];
    try reflexivity.
  destruct (handler_notify _ _ _ m1) as [[r2 m2] tr2]. reflexivity.
Qed.

(** ** Connection handling *)

Section ConnectionClaims.
Variable cfg : Config.
Variable world : World.



Lemma stop_spec (m : Machine) :
  stop m =
  match port (self m) with
  | Some p =>
      (Ret tt, {| self := with_stop_running true (self m); tick := tick m |}, [PortClose p])
  | None =>
      (Raise AttributeError,
       {| self := with_stop_running true (self m); tick := tick m |}, [])
  end.
Proof. unfold stop, bind. cbn. destruct (port (self m)); reflexivity. Qed.

End ConnectionClaims.

(** ** No order on the tuples makes the queue first-in first-out *)

Section AnyOrder.
Variable lt : SortableTuple -> SortableTuple -> bool.

Lemma two_out_of_order (x y : SortableTuple) :
  lt x y = true -> Heapq.pop_all lt (Heapq.push_all lt [] [y; x]) = [x; y].
Proof. intros H. cbn. rewrite H. reflexivity. Qed.

Lemma four_in_a_row (a b c d : SortableTuple) :
  lt b a = false -> lt c a = false -> lt d b = false -> lt b c = false ->
  lt d c = false ->
  exists rest, Heapq.pop_all lt (Heapq.push_all lt [] [a; b; c; d]) = a :: c :: rest.
Proof.
  intros Hba Hca Hdb Hbc Hdc. cbn. rewrite Hba. cbn. rewrite Hca. cbn. rewrite Hdb. cbn.
  rewrite Hbc. cbn. rewrite Hdc. cbn. eexists. reflexivity.
Qed.

(** Whatever [SortableTuple.__lt__] is, some sequence of notifications of
    the one priority the channel uses leaves the queue in another order
    than it entered. *)
Lemma fifo_fails_for_every_order :
  exists items : list SortableTuple,
    Forall (fun item : SortableTuple => item.1.1 = 2) items
    /\ Heapq.pop_all lt (Heapq.push_all lt [] items) <> items.
Proof.
  set (a := Scenario.note "a"). set (b := Scenario.note "b").
  set (c := Scenario.note "c"). set (d := Scenario.note "d").
  destruct (lt b a) eqn:Hba.
  { exists [a; b]. split; [repeat constructor |]. rewrite (two_out_of_order _ _ Hba). discriminate. }
  destruct (lt c a) eqn:Hca.
  { exists [a; c]. split; [repeat constructor |]. rewrite (two_out_of_order _ _ Hca). discriminate. }
  destruct (lt d b) eqn:Hdb.
  { exists [b; d]. split; [repeat constructor |]. rewrite (two_out_of_order _ _ Hdb). discriminate. }
  destruct (lt b c) eqn:Hbc.
  { exists [c; b]. split; [repeat constructor |]. rewrite (two_out_of_order _ _ Hbc). discriminate. }
  destruct (lt d c) eqn:Hdc.
  { exists [c; d]. split; [repeat constructor |]. rewrite (two_out_of_order _ _ Hdc). discriminate. }
  exists [a; b; c; d]. split; [repeat constructor |].
  destruct (four_in_a_row a b c d Hba Hca Hdb Hbc Hdc) as [rest ->]. discriminate.
Qed.

End AnyOrder.

(** ** The claims at concrete inputs *)

(** C1 (defect in the code): a listed contact sends "zone frontdoor
    bypass", the alarm is registered and accepts, the modem is healthy.
    [control_zone("frontdoor", "bypass")] is called once, and yet the SMS
    sent back and the report both say REJECTED: [send_command] returns
    nothing, so the test [if ret] never passes. *)
Theorem C1_accepted_command_answered_rejected :
  let '(r, m', tr) :=
    handle_message Scenario.cfg Scenario.healthy Scenario.noon
      "+15550100" "zone frontdoor bypass" Scenario.online in
  r = Ret tt
  /\ alarm_calls tr = [ControlZone "frontdoor" "bypass"]
  /\ written tr = sms_lines "+15550100" "REJECTED: zone frontdoor bypass"
  /\ notifications tr =
       [Notify "gsm" "+15550100: zone frontdoor bypass" INFO;
        Notify "gsm" "REJECTED: +15550100: zone frontdoor bypass" INFO]
  /\ written tr <> sms_lines "+15550100" "ACCEPTED: zone frontdoor bypass".
Proof. vm_compute. repeat split. discriminate. Qed.

(** C2 fails as stated: an unlisted sender draws two notifications, not
    one. *)
Lemma C2_counterexample :
  Py.str_in "+15550199" (GSM_CONTACTS Scenario.cfg) = false
  /\ List.length
       (notifications
          (handle_message Scenario.cfg Scenario.healthy Scenario.noon
             "+15550199" "zone frontdoor bypass" Scenario.online).2) <> 1%nat.
Proof. vm_compute. split; [reflexivity | discriminate]. Qed.

Lemma C2_witness :
  handle_message Scenario.cfg Scenario.healthy Scenario.noon
    "+15550199" "zone frontdoor bypass" Scenario.online =
  (Ret tt, Scenario.online,
   [Notify "gsm" "+15550199: zone frontdoor bypass" INFO;
    Notify "gsm" "REJECTED: +15550199: zone frontdoor bypass" INFO]).
Proof.
  apply (C2_unlisted_sender_two_notifications Scenario.cfg Scenario.healthy Scenario.noon
           "+15550199" "zone frontdoor bypass" Scenario.online).
  - eexists. reflexivity.
  - eexists. reflexivity.
  - reflexivity.
Defined.

(** C3 fails as stated: four notifications of equal priority leave the
    queue with the second and third exchanged. *)
Lemma C3_counterexample :
  let items := [Scenario.note "a"; Scenario.note "b"; Scenario.note "c"; Scenario.note "d"] in
  Forall (fun item : SortableTuple => item.1.1 = 2) items
  /\ exists m',
       (put_all lt_priority items ;;; get_n lt_priority 4) Scenario.fresh
       = (Ret [Scenario.note "a"; Scenario.note "c"; Scenario.note "b"; Scenario.note "d"],
          m', [])
       /\ [Scenario.note "a"; Scenario.note "c"; Scenario.note "b"; Scenario.note "d"]
          <> items.
Proof.
  split; [repeat constructor |]. eexists. split; [reflexivity | discriminate].
Qed.

(** Under the order by priority and then kind, an event put after a
    notification leaves before it. *)
Lemma fifo_fails_across_kinds :
  exists m',
    (put_all lt_priority_kind [Scenario.note "a"; Scenario.ev 1] ;;;
     get_n lt_priority_kind 2) Scenario.fresh
    = (Ret [Scenario.ev 1; Scenario.note "a"], m', []).
Proof. eexists. reflexivity. Qed.

Lemma C3_witness :
  queue (self Scenario.fresh) = []
  /\ (exists out m',
        (put_all lt_priority_kind [Scenario.note "a"; Scenario.ev 1; Scenario.note "b"] ;;;
         get_n lt_priority_kind 3) Scenario.fresh = (Ret out, m', [])
        /\ out ≡ₚ [Scenario.note "a"; Scenario.ev 1; Scenario.note "b"])
  /\ (exists m',
        (put_all lt_priority [Scenario.note "a"; Scenario.ev 1; Scenario.note "b"] ;;;
         get_n lt_priority 3) Scenario.fresh
        = (Ret [Scenario.note "a"; Scenario.ev 1; Scenario.note "b"], m', [])).
Proof.
  split; [reflexivity |].
  destruct (C3_dequeue_is_permutation lt_priority_kind
              [Scenario.note "a"; Scenario.ev 1; Scenario.note "b"] Scenario.fresh eq_refl)
    as [Hperm Hfifo].
  split; [exact Hperm |].
  apply (Hfifo 2); [repeat constructor | simpl; lia].
Defined.

Lemma C5_witness :
  exists m',
    event lt_priority Scenario.panic Scenario.fresh = (Ret tt, m', [])
    /\ (critical_codes 40 3 ->
        m' = enqueued lt_priority (2, "event", PRaw Scenario.panic) Scenario.fresh)
    /\ (~ critical_codes 40 3 -> m' = Scenario.fresh)
    /\ (List.length (queue (self m')) = S (List.length (queue (self Scenario.fresh)))
        <-> critical_codes 40 3).
Proof.
  apply (C5_event_enqueued_iff_critical lt_priority Scenario.panic 40 3
           "Special alarm" "Panic medical" Scenario.fresh).
  - reflexivity.
  - reflexivity.
Defined.

(** C7 fails as stated: with no alarm registered nothing is echoed. *)
Lemma C7_counterexample :
  alarm (self Scenario.no_alarm) = None
  /\ ~ In (Notify "gsm" "+15550100: zone frontdoor bypass" INFO)
         (handle_message Scenario.cfg Scenario.healthy Scenario.noon
            "+15550100" "zone frontdoor bypass" Scenario.no_alarm).2.
Proof. split; [reflexivity |]. vm_compute. intros []. Qed.

Lemma C7_witness :
  exists tr,
    (handle_message Scenario.cfg Scenario.healthy Scenario.noon
       "+15550100" "output siren on" Scenario.online).2
    = Notify "gsm" ("+15550100" +:+ ": " +:+ "output siren on") INFO :: tr.
Proof.
  apply (C7_echo_needs_alarm Scenario.cfg Scenario.healthy Scenario.noon
           "+15550100" "output siren on" Scenario.online).
  - eexists. reflexivity.
  - eexists. reflexivity.
Defined.

Lemma C8_witness :
  let '(r, m', tr) :=
    handle_message Scenario.cfg Scenario.healthy Scenario.noon
      "+15550100" "partition 1 invalidaction" Scenario.online in
  r = Ret tt
  /\ alarm_calls tr = []
  /\ written tr = sms_lines "+15550100" "REJECTED: partition 1 invalidaction".
Proof.
  pose proof (C8_invalid_action_rejected Scenario.cfg Scenario.healthy Scenario.noon
                "+15550100" "partition 1 invalidaction" "partition" "1" "invalidaction"
                Scenario.online) as H.
  destruct (handle_message Scenario.cfg Scenario.healthy Scenario.noon
              "+15550100" "partition 1 invalidaction" Scenario.online) as [[r m'] tr].
  destruct H as (Hr & Hcalls & _ & _ & Hsteady).
  - eexists. reflexivity.
  - eexists. reflexivity.
  - reflexivity.
  - reflexivity.
  - right. left. split; reflexivity.
  - split; [exact Hr |]. split; [exact Hcalls |].
    apply Hsteady.
    + split; [discriminate | reflexivity].
    + reflexivity.
    + eexists. reflexivity.
Defined.



(** After the failure the device is opened anew as port 3 and takes the
    five commands and then the line. *)
Example reopened_after_failure :
  write Scenario.cfg Scenario.flaky "ATD+15550100" Scenario.failed
  = (Ret (PyBytes "O"),
     {| self := with_modem_connected false (with_port (Some 3%nat) (self Scenario.online));
        tick := 11 |},
     SerialOpen "/dev/ttyUSB0" 9600 (Some 3%nat)
     :: map (fun c => PortWrite 3%nat c (Some (Z.of_nat (String.length c)))) commands
     ++ [PortWrite 3%nat ("ATD+15550100" +:+ Py.CRLF) (Some 14); Sleep 100;
         PortInWaiting 3%nat (Some 2); PortRead 3%nat 1 (Some "O");
         PortInWaiting 3%nat None]).
Proof. reflexivity. Qed.

(** C4 (defect in the code): the channel is not connected, the stop flag
    is down, the device cannot be opened. The round sleeps its one second,
    tries to connect once, and goes straight on to read from the old port:
    the ten-second sleep of the reconnection loop is guarded by the stop
    flag being up, so it never runs here. *)
Theorem C4_no_backoff_before_read (fuel : nat) :
  stop_running (self Scenario.dropped) = false
  /\ modem_connected (self Scenario.dropped) = false
  /\ run_iteration Scenario.cfg Scenario.unplugged lt_priority Scenario.no_strptime
       (S fuel) Scenario.dropped
     = (Ret tt, {| self := self Scenario.dropped; tick := 3 |},
        [Sleep 1000; SerialOpen "/dev/ttyUSB0" 9600 None; PortRead 0%nat 200 None]).
Proof. repeat split. Qed.

(** C10 (defect in the code): on a channel whose port was never opened,
    [stop] sets the flag and then fails on [self.port.close()] with an
    [AttributeError], the port still being [None]. *)
Theorem C10_stop_before_open_raises :
  port (self Scenario.fresh) = None
  /\ stop Scenario.fresh =
     (Raise AttributeError,
      {| self := with_stop_running true GSMInterface_init; tick := 0 |}, []).
Proof. split; reflexivity. Qed.

(** * Further properties of the code *)

(** ** [normalize_payload] *)

Lemma str_in_In (x : string) (l : list string) : Py.str_in x l = true <-> In x l.
Proof.
  unfold Py.str_in. rewrite existsb_exists. split.
  - intros (y & Hy & Heq). apply String.eqb_eq in Heq. subst y. exact Hy.
  - intros Hx. exists x. split; [exact Hx | apply String.eqb_refl].
Qed.

(** X1: whatever [normalize_payload] returns is one of the nine canonical
    actions, and normalising a canonical action gives it back. *)
Theorem normalize_payload_canonical (message c : string) :
  normalize_payload message = Some c ->
  In c ["on"; "off"; "pulse"; "arm"; "disarm"; "arm_stay"; "arm_sleep"; "bypass";
        "clear_bypass"]
  /\ normalize_payload c = Some c.
Proof.
  unfold normalize_payload at 1.
  destruct (Py.str_in _ ["true"; "on"; "1"; "enable"]).
  { intros [= <-]. split; [cbn; tauto | reflexivity]. }
  destruct (Py.str_in _ ["false"; "off"; "0"; "disable"]).
  { intros [= <-]. split; [cbn; tauto | reflexivity]. }
  destruct (Py.str_in _ _) eqn:Hin; [|discriminate].
  intros [= <-]. apply str_in_In in Hin.
  cbn [In] in Hin.
  destruct Hin as [<- | [<- | [<- | [<- | [<- | [<- | [<- | []]]]]]]];
    (split; [cbn; tauto | reflexivity]).
Qed.

Lemma normalize_payload_canonical_witness :
  In "arm_stay" ["on"; "off"; "pulse"; "arm"; "disarm"; "arm_stay"; "arm_sleep"; "bypass";
                 "clear_bypass"]
  /\ normalize_payload "arm_stay" = Some "arm_stay".
Proof. apply (normalize_payload_canonical " Arm_Stay" "arm_stay"). reflexivity. Defined.

Lemma lower_char_idem (c : ascii) : Py.lower_char (Py.lower_char c) = Py.lower_char c.
Proof. destruct c as [[] [] [] [] [] [] [] []]; reflexivity. Qed.

Lemma is_space_lower_char (c : ascii) : Py.is_space (Py.lower_char c) = Py.is_space c.
Proof. destruct c as [[] [] [] [] [] [] [] []]; reflexivity. Qed.

Lemma lower_idem (s : string) : Py.lower (Py.lower s) = Py.lower s.
Proof. induction s as [|c s IH]; cbn; [reflexivity | rewrite lower_char_idem, IH; reflexivity]. Qed.

Lemma lstrip_lower (s : string) :
  Py.lstrip_with Py.is_space (Py.lower s) = Py.lower (Py.lstrip_with Py.is_space s).
Proof.
  induction s as [|c s IH]; cbn [Py.lower Py.lstrip_with]; [reflexivity |].
  rewrite is_space_lower_char. destruct (Py.is_space c); [exact IH | reflexivity].
Qed.

Lemma rstrip_lower (s : string) :
  Py.rstrip_with Py.is_space (Py.lower s) = Py.lower (Py.rstrip_with Py.is_space s).
Proof.
  induction s as [|c s IH]; cbn [Py.lower Py.rstrip_with]; [reflexivity |].
  rewrite IH, is_space_lower_char.
  destruct (Py.rstrip_with Py.is_space s); cbn [Py.lower]; [|reflexivity].
  destruct (Py.is_space c); reflexivity.
Qed.

Lemma strip_lower (s : string) : Py.strip (Py.lower s) = Py.lower (Py.strip s).
Proof. unfold Py.strip. rewrite lstrip_lower, rstrip_lower. reflexivity. Qed.

Lemma lstrip_blank_app (pad s : string) :
  blank pad -> Py.lstrip_with Py.is_space (pad +:+ s) = Py.lstrip_with Py.is_space s.
Proof.
  unfold blank. induction pad as [|c pad IH]; intros Hpad; [reflexivity |].
  change (String c pad +:+ s) with (String c (pad +:+ s)).
  cbn [Py.lstrip_with] in *. destruct (Py.is_space c); [exact (IH Hpad) | discriminate].
Qed.

Lemma rstrip_blank (pad : string) : blank pad -> Py.rstrip_with Py.is_space pad = EmptyString.
Proof.
  unfold blank. induction pad as [|c pad IH]; intros Hpad; [reflexivity |].
  cbn [Py.lstrip_with Py.rstrip_with] in *.
  destruct (Py.is_space c); [|discriminate]. rewrite (IH Hpad). reflexivity.
Qed.

Lemma rstrip_app_blank (s pad : string) :
  blank pad -> Py.rstrip_with Py.is_space (s +:+ pad) = Py.rstrip_with Py.is_space s.
Proof.
  intros Hpad. induction s as [|c s IH].
  - apply rstrip_blank. exact Hpad.
  - change (String c s +:+ pad) with (String c (s +:+ pad)).
    cbn [Py.rstrip_with]. rewrite IH. reflexivity.
Qed.

Lemma strip_app_blank (s pad : string) : blank pad -> Py.strip (s +:+ pad) = Py.strip s.
Proof.
  intros Hpad. unfold Py.strip. induction s as [|c s IH].
  - cbn [Py.lstrip_with]. change (EmptyString +:+ pad) with pad. rewrite Hpad. reflexivity.
  - change (String c s +:+ pad) with (String c (s +:+ pad)). cbn [Py.lstrip_with].
    destruct (Py.is_space c); [exact IH |].
    change (String c (s +:+ pad)) with (String c s +:+ pad).
    apply rstrip_app_blank. exact Hpad.
Qed.

(** X2: [normalize_payload] looks at neither case nor surrounding
    whitespace: two messages that lower-case to the same text normalise
    alike, and so does a message wrapped in whitespace. *)
Theorem normalize_payload_insensitive (message : string) :
  (forall other : string,
      Py.lower other = Py.lower message ->
      normalize_payload other = normalize_payload message)
  /\ (forall before after : string,
        blank before -> blank after ->
        normalize_payload (before +:+ message +:+ after) = normalize_payload message).
Proof.
  split.
  - intros other Hlower. unfold normalize_payload.
    rewrite <- !strip_lower, Hlower. reflexivity.
  - intros before after Hb Ha. unfold normalize_payload.
    replace (Py.strip (before +:+ message +:+ after)) with (Py.strip message); [reflexivity |].
    unfold Py.strip at 2. rewrite lstrip_blank_app by exact Hb.
    symmetry. apply (strip_app_blank message after Ha).
Qed.

Lemma normalize_payload_insensitive_witness :
  normalize_payload "DISARM" = normalize_payload "Disarm"
  /\ normalize_payload (" " +:+ "Disarm" +:+ String "013" (String "010" EmptyString))
     = normalize_payload "Disarm".
Proof.
  destruct (normalize_payload_insensitive "Disarm") as [Hcase Hpad].
  split; [apply Hcase | apply Hpad]; reflexivity.
Defined.

(** ** [send_command] *)

(** X3: a command of three tokens whose type is known and whose
    normalised action is allowed for that type makes exactly one call, to
    the control method of that type, with the label as it was written and
    the action normalised; the object is left as it was and nothing is
    returned. *)
Theorem send_command_dispatch (body t0 t1 t2 c : string) (a : Alarm) (m : Machine) :
  alarm (self m) = Some a ->
  Py.split " " body = [t0; t1; t2] ->
  normalize_payload t2 = Some c ->
  (Py.lower t0 = "zone" -> Py.str_in c zone_commands = true ->
   send_command body m = (Ret None, m, [ControlZone t1 c]))
  /\ (Py.lower t0 = "partition" -> Py.str_in c partition_commands = true ->
      send_command body m = (Ret None, m, [ControlPartition t1 c]))
  /\ (Py.lower t0 = "output" -> Py.str_in c output_commands = true ->
      send_command body m = (Ret None, m, [ControlOutput t1 c])).
Proof.
  intros Ha Hsplit Hnorm.
  repeat split; intros Htype Hin; unfold send_command; rewrite Hsplit; unfold bind at 1;
    cbn [get_self]; rewrite Ha, Hnorm, Htype; cbn [command_in]; rewrite Hin; reflexivity.
Qed.

Lemma send_command_dispatch_witness :
  send_command "Partition Ground-Floor ARM_STAY" Scenario.online
  = (Ret None, Scenario.online, [ControlPartition "Ground-Floor" "arm_stay"]).
Proof.
  apply (send_command_dispatch "Partition Ground-Floor ARM_STAY"
           "Partition" "Ground-Floor" "ARM_STAY" "arm_stay"
           Scenario.accepting Scenario.online); reflexivity.
Defined.

(** X4: [send_command] does nothing, and returns nothing, when the body
    does not split into exactly three tokens on single spaces, when no
    alarm is registered, or when the first token lower-cased is none of
    zone, partition and output. *)
Theorem send_command_ignores (body : string) (m : Machine) :
  List.length (Py.split " " body) <> 3%nat
  \/ alarm (self m) = None
  \/ (exists t0 t1 t2,
        Py.split " " body = [t0; t1; t2]
        /\ Py.lower t0 <> "zone" /\ Py.lower t0 <> "partition" /\ Py.lower t0 <> "output") ->
  send_command body m = (Ret None, m, []).
Proof.
  intros [Hlen | [Ha | (t0 & t1 & t2 & Hsplit & Hz & Hp & Ho)]]; unfold send_command.
  - destruct (Py.split " " body) as [|? [|? [|? [|? ?]]]]; try reflexivity.
    cbn in Hlen. lia.
  - destruct (Py.split " " body) as [|? [|? [|? [|? ?]]]]; try reflexivity.
    unfold bind. cbn [get_self]. rewrite Ha. reflexivity.
  - rewrite Hsplit. unfold bind at 1. cbn [get_self].
    destruct (alarm (self m)); [|reflexivity].
    apply String.eqb_neq in Hz, Hp, Ho. rewrite Hz, Hp, Ho. reflexivity.
Qed.

Lemma send_command_ignores_witness :
  send_command "siren 1 on" Scenario.online = (Ret None, Scenario.online, []).
Proof.
  apply (send_command_ignores "siren 1 on" Scenario.online).
  right. right. exists "siren", "1", "on".
  repeat split; discriminate.
Defined.

(** ** [event] on a raw event that lacks a key *)

(** X5: [event] fails with a [KeyError], the queue untouched, when the
    raw event has no ['major'] entry, or has major 2 or 40 and no
    ['minor'] entry. With major 37 the ['minor'] entry is never looked up
    and the event is queued without it; with any other major its absence
    goes unnoticed and the event is dropped. *)
Theorem event_missing_key (lt : SortableTuple -> SortableTuple -> bool)
    (raw : RawEvent) (m : Machine) :
  (raw !! "major" = None -> event lt raw m = (Raise KeyError, m, []))
  /\ (forall (major : Z) (text : string),
        raw !! "major" = Some (major, text) ->
        raw !! "minor" = None ->
        (major = 37 ->
         event lt raw m = (Ret tt, enqueued lt (2, "event", PRaw raw) m, []))
        /\ (major = 2 \/ major = 40 -> event lt raw m = (Raise KeyError, m, []))
        /\ (major <> 37 -> major <> 2 -> major <> 40 ->
            event lt raw m = (Ret tt, m, []))).
Proof.
  split.
  - intros Hmajor. unfold event, bind, subscript. rewrite Hmajor. reflexivity.
  - intros major text Hmajor Hminor. repeat split.
    + intros ->. unfold event, bind, subscript. rewrite Hmajor. reflexivity.
    + intros [-> | ->]; unfold event, bind, subscript; rewrite Hmajor, Hminor; reflexivity.
    + intros H37 H2 H40. unfold event, bind, subscript. rewrite Hmajor. cbn [fst snd ret].
      apply Z.eqb_neq in H37, H2, H40. rewrite H37, H2, H40. reflexivity.
Qed.

(** ** The serial side never lets an exception out *)

(** X6: [write] always returns: whatever the device does and whatever
    the message is, text that cannot be encoded included, no exception
    leaves it. It touches neither the registrations nor the queue, and
    what it does is confined to the serial port. *)
Theorem write_never_raises (cfg : Config) (world : World) (message : Py.str) (m : Machine) :
  exists (data : PyData) (m' : Machine) (tr : list Event),
    write cfg world message m = (Ret data, m', tr)
    /\ same_registrations m m'
    /\ Forall (fun e => is_port_event e = true) tr.
Proof.
  pose proof (write_spec cfg world message m) as H.
  destruct (write cfg world message m) as [[r m'] tr].
  destruct H as ([data ->] & Hreg & Hev). exists data, m', tr.
  split; [reflexivity |]. split; assumption.
Qed.

Section LoopFacts.
Variable cfg : Config.
Variable world : World.

(** A loop over a list whose body always returns, keeps the registrations
    and stays on the serial side does the same. *)
Lemma for_each_frame {A : Type} (body : A -> M unit) (l : list A) :
  (forall x m, let '(r, m', tr) := body x m in
               r = Ret tt /\ same_registrations m m'
               /\ Forall (fun e => is_port_event e = true) tr) ->
  forall m, let '(r, m', tr) := for_each l body m in
            r = Ret tt /\ same_registrations m m'
            /\ Forall (fun e => is_port_event e = true) tr.
Proof.
  intros Hbody. induction l as [|x l IH]; intros m; cbn [for_each].
  - cbn. split; [reflexivity |]. split; [apply same_registrations_refl | constructor].
  - unfold bind at 1. specialize (Hbody x m). destruct (body x m) as [[r1 m1] tr1].
    destruct Hbody as (-> & Hreg1 & Hev1).
    specialize (IH m1). destruct (for_each l body m1) as [[r2 m2] tr2].
    destruct IH as (-> & Hreg2 & Hev2).
    split; [reflexivity |].
    split; [eapply same_registrations_trans; eassumption | apply Forall_app; split; assumption].
Qed.

(** On a steady device a loop of bodies that each keep the object and
    write their own lines writes the lines of all, in order. *)
Lemma for_each_written {A : Type} (body : A -> M unit) (lines : A -> list string)
    (l : list A) :
  (forall x m, modem_connected (self m) = true -> is_Some (port (self m)) ->
               let '(r, m', tr) := body x m in
               r = Ret tt /\ self m' = self m /\ written tr = lines x) ->
  forall m, modem_connected (self m) = true -> is_Some (port (self m)) ->
            let '(r, m', tr) := for_each l body m in
            r = Ret tt /\ self m' = self m /\ written tr = List.concat (map lines l).
Proof.
  intros Hbody. induction l as [|x l IH]; intros m Hflag Hport; cbn [for_each].
  - cbn. repeat split.
  - unfold bind at 1. specialize (Hbody x m Hflag Hport). destruct (body x m) as [[r1 m1] tr1].
    destruct Hbody as (-> & Hself1 & Hw1).
    specialize (IH m1). rewrite Hself1 in IH. specialize (IH Hflag Hport).
    destruct (for_each l body m1) as [[r2 m2] tr2].
    destruct IH as (-> & Hself2 & Hw2).
    split; [reflexivity |]. split; [congruence |].
    rewrite written_app, Hw1, Hw2. reflexivity.
Qed.

Lemma handle_event_frame (raw : Payload) (m : Machine) :
  let '(r, m', tr) := handle_event cfg world raw m in
  r = Ret tt /\ same_registrations m m' /\ Forall (fun e => is_port_event e = true) tr.
Proof.
  unfold handle_event. apply for_each_frame. intros contact m0. unfold bind.
  pose proof (write_spec cfg world ("ATD" +:+ contact) m0) as H.
  destruct (write cfg world ("ATD" +:+ contact) m0) as [[r m'] tr].
  destruct H as ([d ->] & Hreg & Hev). cbn. rewrite app_nil_r.
  split; [reflexivity |]. split; assumption.
Qed.

(** A loop over a list writes what its bodies write. *)
Lemma for_each_lines {A : Type} (body : A -> M unit) (P : A -> string -> Prop)
    (l : list A) :
  (forall x m, Forall (P x) (written (body x m).2)) ->
  forall m, Forall (fun line => exists x, In x l /\ P x line)
              (written (for_each l body m).2).
Proof.
  intros Hbody. induction l as [|x l IH]; intros m; cbn [for_each].
  - constructor.
  - unfold bind at 1. specialize (Hbody x m). destruct (body x m) as [[r1 m1] tr1].
    cbn [snd] in Hbody.
    assert (H1 : Forall (fun line => exists y, In y (x :: l) /\ P y line) (written tr1)).
    { eapply Forall_impl; [exact Hbody |]. intros line Hline. exists x. split; [left; reflexivity | exact Hline]. }
    destruct r1 as [[]| |]; [|exact H1 | exact H1].
    specialize (IH m1). destruct (for_each l body m1) as [[r2 m2] tr2]. cbn [snd] in IH |- *.
    rewrite written_app. apply Forall_app. split; [exact H1 |].
    eapply Forall_impl; [exact IH |]. intros line (y & Hy & Hline).
    exists y. split; [right; exact Hy | exact Hline].
Qed.

Lemma send_message_frame (message : Py.str) (m : Machine) :
  let '(r, m', tr) := send_message cfg world message m in
  r = Ret tt /\ same_registrations m m' /\ Forall (fun e => is_port_event e = true) tr.
Proof.
  unfold send_message. unfold bind at 1. cbn [get_self].
  destruct (port (self m)).
  - pose proof (for_each_frame (fun dst => send_sms cfg world dst message) (GSM_CONTACTS cfg)
                  (fun dst m0 => send_sms_spec cfg world dst message m0) m) as H.
    destruct (for_each (GSM_CONTACTS cfg) _ m) as [[r m'] tr]. exact H.
  - cbn. split; [reflexivity |]. split; [apply same_registrations_refl | constructor].
Qed.

End LoopFacts.

(** ** The worker's queue step and its fan-out *)

Section WorkerFacts.
Variable cfg : Config.
Variable world : World.
Variable lt : SortableTuple -> SortableTuple -> bool.

(** What [run_loop] does with the item it took: it may raise (a raw event
    queued under the kind 'notify'), but it stays on the serial side. *)
Lemma route_frame (kind : string) (payload : Payload) (m : Machine) :
  let '(r, m', tr) :=
    (if String.eqb kind "change" then handle_change payload
     else if String.eqb kind "event" then handle_event cfg world payload
     else if String.eqb kind "notify" then
       let* source := payload_subscript payload 0 in
       let* message := payload_subscript payload 1 in
       send_message cfg world (Py.add (Py.add source ": ") message)
     else ret tt) m in
  (r = Ret tt \/ exists e, r = Raise e)
  /\ same_registrations m m'
  /\ Forall (fun e => is_port_event e = true) tr.
Proof.
  destruct (String.eqb kind "change").
  { cbn. split; [left; reflexivity |]. split; [apply same_registrations_refl | constructor]. }
  destruct (String.eqb kind "event").
  { pose proof (handle_event_frame cfg world payload m) as H.
    destruct (handle_event cfg world payload m) as [[r m'] tr].
    destruct H as (-> & Hreg & Hev). split; [left; reflexivity |]. split; assumption. }
  destruct (String.eqb kind "notify").
  { destruct payload as [raw | source message level].
    - cbn. split; [right; eexists; reflexivity |].
      split; [apply same_registrations_refl | constructor].
    - unfold bind. cbn [payload_subscript ret].
      pose proof (send_message_frame cfg world (Py.add (Py.add source ": ") message) m) as H.
      destruct (send_message cfg world (Py.add (Py.add source ": ") message) m) as [[r m'] tr].
      destruct H as (-> & Hreg & Hev). cbn. split; [left; reflexivity |]. split; assumption. }
  cbn. split; [left; reflexivity |]. split; [apply same_registrations_refl | constructor].
Qed.

(** [run_loop] returns [True], takes at most one item and stays on the
    serial side. *)
Lemma run_loop_frame (m : Machine) :
  let '(r, m', tr) := run_loop cfg world lt m in
  r = Ret true
  /\ alarm (self m') = alarm (self m)
  /\ notification_handler (self m') = notification_handler (self m)
  /\ stop_running (self m') = stop_running (self m)
  /\ Forall (fun e => is_port_event e = true) tr
  /\ match Heapq.heappop lt (queue (self m)) with
     | None => queue (self m) = [] /\ m' = m /\ tr = []
     | Some (_, q) => queue (self m') = q
     end
  /\ List.length (queue (self m')) = Nat.pred (List.length (queue (self m))).
Proof.
  unfold run_loop, try_except. unfold bind at 1. unfold queue_get. unfold bind at 1.
  cbn [get_self].
  destruct (Heapq.heappop lt (queue (self m))) as [[item q]|] eqn:Hpop.
  - pose proof (heappop_perm _ _ _ _ Hpop) as Hperm.
    apply Permutation_length in Hperm. cbn [List.length] in Hperm.
    unfold bind at 1. cbn [modify ret]. destruct item as [[priority kind] payload].
    unfold bind at 1.
    pose proof (route_frame kind payload {| self := with_queue q (self m); tick := tick m |})
      as Hroute.
    set (route := if String.eqb kind "change" then _ else _) in *.
    destruct (route {| self := with_queue q (self m); tick := tick m |}) as [[r1 m1] tr1].
    destruct Hroute as (Hr & (Ha & Hh & Hs & Hq) & Hev). cbn in Ha, Hh, Hs, Hq.
    destruct Hr as [-> | [e ->]]; cbn; rewrite ?app_nil_r;
      (split; [reflexivity |]); (split; [exact Ha |]); (split; [exact Hh |]);
      (split; [exact Hs |]); (split; [exact Hev |]); (split; [exact Hq |]);
      rewrite Hq; lia.
  - apply heappop_None in Hpop. cbn. rewrite Hpop. repeat split. constructor.
Qed.

(** X7: [run_loop] always returns [True]: an empty queue, or anything
    that goes wrong with the item, ends there. It takes one item off the
    queue when there is one and does nothing otherwise; it keeps the
    registrations and the stop flag, and acts on the serial side only. *)
Theorem run_loop_isolated (m : Machine) :
  let '(r, m', tr) := run_loop cfg world lt m in
  r = Ret true
  /\ alarm (self m') = alarm (self m)
  /\ notification_handler (self m') = notification_handler (self m)
  /\ stop_running (self m') = stop_running (self m)
  /\ Forall (fun e => is_port_event e = true) tr
  /\ match Heapq.heappop lt (queue (self m)) with
     | None => queue (self m) = [] /\ m' = m /\ tr = []
     | Some (_, q) => queue (self m') = q
     end
  /\ List.length (queue (self m')) = Nat.pred (List.length (queue (self m))).
Proof. exact (run_loop_frame m). Qed.

(** [handle_event] on a steady device: one [ATD] line per contact. *)
Lemma handle_event_steady (raw : Payload) (m : Machine) :
  steady world -> modem_connected (self m) = true -> is_Some (port (self m)) ->
  let '(r, m', tr) := handle_event cfg world raw m in
  r = Ret tt
  /\ self m' = self m
  /\ written tr = map (fun contact => ("ATD" +:+ contact) +:+ Py.CRLF) (GSM_CONTACTS cfg).
Proof.
  intros Hsteady Hflag Hport. unfold handle_event.
  pose proof (for_each_written (fun contact => write cfg world ("ATD" +:+ contact) ;;; ret tt)
                (fun contact => [("ATD" +:+ contact) +:+ Py.CRLF]) (GSM_CONTACTS cfg)) as H.
  assert (Hconcat : forall l : list string,
             List.concat (map (fun contact => [("ATD" +:+ contact) +:+ Py.CRLF]) l)
             = map (fun contact => ("ATD" +:+ contact) +:+ Py.CRLF) l).
  { induction l as [|x l IH]; cbn; [reflexivity | rewrite IH; reflexivity]. }
  rewrite <- Hconcat. apply H; [|exact Hflag | exact Hport].
  intros contact m0 Hflag0 Hport0. unfold bind.
  pose proof (write_steady cfg world ("ATD" +:+ contact) m0 Hsteady Hflag0 Hport0) as Hw.
  destruct (write cfg world ("ATD" +:+ contact) m0) as [[r1 m1] tr1].
  destruct Hw as ([d ->] & Hself & Hw). cbn. rewrite app_nil_r. repeat split; assumption.
Qed.

(** X8: on a connected channel with a steady device [handle_event] dials
    every contact, in the order of the list, one [ATD] line each, and
    leaves the object as it was. *)
Theorem handle_event_dials_every_contact (raw : Payload) (m : Machine) :
  steady world -> modem_connected (self m) = true -> is_Some (port (self m)) ->
  let '(r, m', tr) := handle_event cfg world raw m in
  r = Ret tt
  /\ self m' = self m
  /\ written tr = map (fun contact => ("ATD" +:+ contact) +:+ Py.CRLF) (GSM_CONTACTS cfg).
Proof. exact (handle_event_steady raw m). Qed.

(** [send_message] with no port; on a steady device, with a message
    that can be encoded; and with one that cannot. *)
Lemma send_message_steady (message : Py.str) (m : Machine) :
  (port (self m) = None -> send_message cfg world message m = (Ret tt, m, []))
  /\ (forall line : string,
        Py.encode (Py.add message Py.CRLF) = Some line ->
        steady world -> modem_connected (self m) = true -> is_Some (port (self m)) ->
        let '(r, m', tr) := send_message cfg world message m in
        r = Ret tt
        /\ self m' = self m
        /\ written tr = List.concat (map (fun dst => sms_frame dst line) (GSM_CONTACTS cfg)))
  /\ (Py.encode (Py.add message Py.CRLF) = None ->
      let '(r, m', tr) := send_message cfg world message m in
      r = Ret tt /\ Forall (framing cfg) (written tr)).
Proof.
  split; [|split].
  - intros Hport. unfold send_message, bind. cbn [get_self]. rewrite Hport. reflexivity.
  - intros line Hline Hsteady Hflag Hport. unfold send_message. unfold bind at 1. cbn [get_self].
    destruct Hport as [p Hp]. rewrite Hp.
    pose proof (for_each_written (fun dst => send_sms cfg world dst message)
                  (fun dst => sms_frame dst line) (GSM_CONTACTS cfg)
                  (fun dst m0 => send_sms_steady_text cfg world dst message line m0 Hline
                                   Hsteady) m Hflag
                  (ex_intro _ p Hp)) as H.
    destruct (for_each (GSM_CONTACTS cfg) _ m) as [[r m'] tr]. exact H.
  - intros Hnone. pose proof (send_message_frame cfg world message m) as Hframe.
    unfold send_message in *. unfold bind at 1 in Hframe. unfold bind at 1.
    cbn [get_self] in *.
    destruct (port (self m)) as [p|]; [|cbn; split; [reflexivity | constructor]].
    pose proof (for_each_lines (fun dst => send_sms cfg world dst message) _ (GSM_CONTACTS cfg)
                  (fun dst m0 => send_sms_lines cfg world dst message m0) m) as Hlines.
    destruct (for_each (GSM_CONTACTS cfg) _ m) as [[r m'] tr]. cbn [snd] in Hlines.
    destruct Hframe as (-> & _). cbn [app]. split; [reflexivity |].
    eapply Forall_impl; [exact Hlines |]. intros l (dst & Hdst & Hl). unfold framing.
    rewrite Hnone in Hl. destruct Hl as [Hl | [Hl | [Hl | Hl]]]; [tauto | tauto | | discriminate].
    right. right. exists dst. split; assumption.
Qed.

(** X9: [send_message] does nothing while the port is still [None]. On a
    connected channel with a steady device a message that latin-1 can
    encode goes to every contact, in the order of the list, three lines
    each: the header, the encoded text, the terminator; and the object is
    left as it was. A message that latin-1 cannot encode is never put on
    the wire, on any device: [send_message] returns all the same, and
    every line it wrote is a header, a terminator or an initialisation
    command. *)
Theorem send_message_fans_out (message : Py.str) (m : Machine) :
  (port (self m) = None -> send_message cfg world message m = (Ret tt, m, []))
  /\ (forall line : string,
        Py.encode (Py.add message Py.CRLF) = Some line ->
        steady world -> modem_connected (self m) = true -> is_Some (port (self m)) ->
        let '(r, m', tr) := send_message cfg world message m in
        r = Ret tt
        /\ self m' = self m
        /\ written tr = List.concat (map (fun dst => sms_frame dst line) (GSM_CONTACTS cfg)))
  /\ (Py.encode (Py.add message Py.CRLF) = None ->
      let '(r, m', tr) := send_message cfg world message m in
      r = Ret tt /\ Forall (framing cfg) (written tr)).
Proof. exact (send_message_steady message m). Qed.

End WorkerFacts.

(** ** Splitting and stripping *)

Section StringFacts.
Variable sep : ascii.

Lemma split_nonempty (s : string) : Py.split sep s <> [].
Proof.
  induction s as [|c s IH]; cbn [Py.split]; [discriminate |].
  destruct (Ascii.eqb c sep); [discriminate |].
  destruct (Py.split sep s); [contradiction | discriminate].
Qed.

Lemma split_without (s : string) : has_char sep s = false -> Py.split sep s = [s].
Proof.
  induction s as [|c s IH]; cbn [Py.split has_char]; [reflexivity |].
  intros H. apply orb_false_iff in H as [Hc Hs]. rewrite Hc, (IH Hs). reflexivity.
Qed.

(** The first separator ends the first token. *)
Lemma split_app_sep (a rest : string) :
  has_char sep a = false ->
  Py.split sep (a +:+ String sep rest) = a :: Py.split sep rest.
Proof.
  induction a as [|c a IH]; intros H.
  - change (EmptyString +:+ String sep rest) with (String sep rest).
    cbn [Py.split]. rewrite Ascii.eqb_refl. reflexivity.
  - change (String c a +:+ String sep rest) with (String c (a +:+ String sep rest)).
    cbn [Py.split has_char] in *. apply orb_false_iff in H as [Hc Ha].
    rewrite Hc, (IH Ha). reflexivity.
Qed.

(** A string has no separator, or a first one. *)
Lemma first_separator (s : string) :
  has_char sep s = false
  \/ exists a rest, s = a +:+ String sep rest /\ has_char sep a = false.
Proof.
  induction s as [|c s IH]; [left; reflexivity |].
  cbn [has_char]. destruct (Ascii.eqb c sep) eqn:Hc.
  - apply Ascii.eqb_eq in Hc. subst c. right. exists EmptyString, s. split; reflexivity.
  - destruct IH as [Hs | (a & rest & -> & Ha)]; [left; exact Hs |].
    right. exists (String c a), rest. split; [reflexivity |]. cbn [has_char]. rewrite Hc, Ha.
    reflexivity.
Qed.

End StringFacts.

Section StripFacts.
Variable sp : ascii -> bool.

Lemma rstrip_idem (s : string) :
  Py.rstrip_with sp (Py.rstrip_with sp s) = Py.rstrip_with sp s.
Proof.
  induction s as [|c s IH]; [reflexivity |]. cbn [Py.rstrip_with].
  destruct (Py.rstrip_with sp s) as [|x r] eqn:Hr.
  - destruct (sp c) eqn:Hc; [reflexivity |]. cbn [Py.rstrip_with]. rewrite Hc. reflexivity.
  - cbn [Py.rstrip_with] in *. rewrite IH. reflexivity.
Qed.

(** Stripping on the right stops at a character that is not whitespace. *)
Lemma rstrip_anchor (a b : string) (c : ascii) :
  sp c = false ->
  Py.rstrip_with sp (a +:+ String c b) = a +:+ String c (Py.rstrip_with sp b).
Proof.
  intros Hc. induction a as [|x a IH].
  - change (EmptyString +:+ String c b) with (String c b).
    change (EmptyString +:+ String c (Py.rstrip_with sp b))
      with (String c (Py.rstrip_with sp b)).
    cbn [Py.rstrip_with]. rewrite Hc. destruct (Py.rstrip_with sp b); reflexivity.
  - change (String x a +:+ String c b) with (String x (a +:+ String c b)).
    cbn [Py.rstrip_with]. rewrite IH.
    destruct a; reflexivity.
Qed.

Lemma lstrip_rstrip (s : string) :
  Py.lstrip_with sp (Py.rstrip_with sp s) = Py.rstrip_with sp (Py.lstrip_with sp s).
Proof.
  induction s as [|c s IH]; [reflexivity |]. cbn [Py.lstrip_with Py.rstrip_with].
  destruct (sp c) eqn:Hc.
  - destruct (Py.rstrip_with sp s) as [|x r] eqn:Hr.
    + rewrite <- IH. reflexivity.
    + cbn [Py.lstrip_with]. rewrite Hc. exact IH.
  - cbn [Py.rstrip_with].
    destruct (Py.rstrip_with sp s); cbn [Py.lstrip_with]; rewrite Hc; reflexivity.
Qed.

Lemma has_char_rstrip (c : ascii) (s : string) :
  has_char c s = false -> has_char c (Py.rstrip_with sp s) = false.
Proof.
  induction s as [|x s IH]; [reflexivity |]. cbn [has_char Py.rstrip_with].
  intros H. apply orb_false_iff in H as [Hx Hs]. specialize (IH Hs).
  destruct (Py.rstrip_with sp s).
  - destruct (sp x); [reflexivity |]. cbn [has_char]. rewrite Hx. reflexivity.
  - cbn [has_char] in *. rewrite Hx. exact IH.
Qed.

End StripFacts.

Lemma strip_rstrip (s : string) : Py.strip (Py.rstrip_with Py.is_space s) = Py.strip s.
Proof. unfold Py.strip. rewrite lstrip_rstrip, rstrip_idem. reflexivity. Qed.

(** What reaches the last token of a line whose tail is anchored by a
    double quote: the tail up to its own first quote, stripped. *)
Lemma strip_before_quote_rstrip (tail : string) :
  Py.strip (before_quote (Py.rstrip_with Py.is_space tail)) = Py.strip (before_quote tail).
Proof.
  unfold before_quote.
  destruct (first_separator "034" tail) as [Hnone | (a & rest & -> & Ha)].
  - rewrite (split_without _ _ Hnone).
    rewrite (split_without _ _ (has_char_rstrip _ _ _ Hnone)). cbn [hd]. apply strip_rstrip.
  - rewrite rstrip_anchor by reflexivity. rewrite !split_app_sep by exact Ha. reflexivity.
Qed.

Section LstripFacts.
Variable sp : ascii -> bool.

Lemma lstrip_idem (s : string) :
  Py.lstrip_with sp (Py.lstrip_with sp s) = Py.lstrip_with sp s.
Proof.
  induction s as [|c s IH]; [reflexivity |]. cbn [Py.lstrip_with].
  destruct (sp c) eqn:Hc; [exact IH |]. cbn [Py.lstrip_with]. rewrite Hc. reflexivity.
Qed.

Lemma lstrip_anchor (a b : string) (c : ascii) :
  sp c = false ->
  Py.lstrip_with sp (a +:+ String c b) = Py.lstrip_with sp a +:+ String c b.
Proof.
  intros Hc. induction a as [|x a IH].
  - change (EmptyString +:+ String c b) with (String c b). cbn [Py.lstrip_with].
    rewrite Hc. reflexivity.
  - change (String x a +:+ String c b) with (String x (a +:+ String c b)).
    cbn [Py.lstrip_with]. destruct (sp x); [exact IH | reflexivity].
Qed.

Lemma has_char_lstrip (c : ascii) (s : string) :
  has_char c s = false -> has_char c (Py.lstrip_with sp s) = false.
Proof.
  induction s as [|x s IH]; [reflexivity |]. cbn [has_char Py.lstrip_with].
  intros H. destruct (sp x).
  - apply orb_false_iff in H as [_ Hs]. exact (IH Hs).
  - exact H.
Qed.

End LstripFacts.

Lemma strip_lstrip (s : string) : Py.strip (Py.lstrip_with Py.is_space s) = Py.strip s.
Proof. unfold Py.strip. rewrite lstrip_idem. reflexivity. Qed.

(** The tokens [run] makes of a chunk that opens with a quoted field. *)
Lemma tokens_of_quoted (header rest : string) :
  has_char "034" header = false ->
  Py.split "034" (Py.lstrip_with Py.is_space (header +:+ String "034" rest))
  = Py.lstrip_with Py.is_space header :: Py.split "034" rest.
Proof.
  intros Hh. rewrite lstrip_anchor by reflexivity.
  apply split_app_sep. apply has_char_lstrip. exact Hh.
Qed.

(** ** The inbound reader *)

Section InboundFacts.
Variable cfg : Config.
Variable world : World.
Variable strptime : string -> string -> option datetime.

(** The tokens of a chunk are its quote-free pieces, each stripped; the
    strip of the whole chunk only shows in the last one. *)
Lemma tokens_one_quoted (header text tail : string) :
  has_char "034" header = false ->
  has_char "034" text = false ->
  map Py.strip (Py.split "034" (Py.strip (one_quoted header text tail)))
  = Py.strip header :: Py.strip text
    :: map Py.strip (Py.split "034" (Py.rstrip_with Py.is_space tail)).
Proof.
  intros Hh Ht. unfold one_quoted.
  repeat match goal with
         | |- context [Py.dquote +:+ ?x] => change (Py.dquote +:+ x) with (String "034" x)
         end.
  unfold Py.strip at 2. rewrite lstrip_anchor by reflexivity.
  rewrite !rstrip_anchor by reflexivity.
  rewrite split_app_sep by (apply has_char_lstrip; exact Hh).
  rewrite !split_app_sep by assumption.
  cbn [map]. rewrite strip_lstrip. reflexivity.
Qed.

Lemma tokens_three_quoted (header source sep1 alpha sep2 stamp tail : string) :
  has_char "034" header = false ->
  has_char "034" source = false ->
  has_char "034" sep1 = false ->
  has_char "034" alpha = false ->
  has_char "034" sep2 = false ->
  has_char "034" stamp = false ->
  map Py.strip
    (Py.split "034" (Py.strip (three_quoted header source sep1 alpha sep2 stamp tail)))
  = Py.strip header :: Py.strip source :: Py.strip sep1 :: Py.strip alpha
    :: Py.strip sep2 :: Py.strip stamp
    :: map Py.strip (Py.split "034" (Py.rstrip_with Py.is_space tail)).
Proof.
  intros Hh Hsrc Hs1 Ha Hs2 Hst. unfold three_quoted.
  repeat match goal with
         | |- context [Py.dquote +:+ ?x] => change (Py.dquote +:+ x) with (String "034" x)
         end.
  unfold Py.strip at 2. rewrite lstrip_anchor by reflexivity.
  rewrite !rstrip_anchor by reflexivity.
  rewrite split_app_sep by (apply has_char_lstrip; exact Hh).
  rewrite !split_app_sep by assumption.
  cbn [map]. rewrite strip_lstrip. reflexivity.
Qed.

Lemma first_token_of_tail (tail : string) :
  exists rest,
    map Py.strip (Py.split "034" (Py.rstrip_with Py.is_space tail))
    = Py.strip (before_quote tail) :: rest.
Proof.
  pose proof (strip_before_quote_rstrip tail) as Htail. unfold before_quote in *.
  destruct (Py.split "034" (Py.rstrip_with Py.is_space tail)) as [|t ts] eqn:Hsplit;
    [destruct (split_nonempty _ _ Hsplit) |].
  cbn [hd map] in *. rewrite Htail. eexists. reflexivity.
Qed.

(** X10: a chunk whose header strips to "+CMT:", followed by three quoted
    fields and a tail, is an incoming SMS: the first field stripped is the
    sender, the third is the time stamp, cut at its first "+", and the
    message is the tail up to its first double quote, stripped. When the
    time stamp parses, [inbound] is [handle_message] on these. *)
Theorem inbound_sms_parsed (header source sep1 alpha sep2 stamp tail : string)
    (timestamp : datetime) (m : Machine) :
  has_char "034" header = false ->
  Py.strip header = "+CMT:" ->
  has_char "034" source = false ->
  has_char "034" sep1 = false ->
  has_char "034" alpha = false ->
  has_char "034" sep2 = false ->
  has_char "034" stamp = false ->
  strptime (hd EmptyString (Py.split "+" (Py.strip stamp))) strptime_format = Some timestamp ->
  inbound cfg world strptime (three_quoted header source sep1 alpha sep2 stamp tail) m
  = handle_message cfg world timestamp (Py.strip source) (Py.strip (before_quote tail)) m.
Proof.
  intros Hh Hcmt Hsrc Hs1 Ha Hs2 Hst Htime. unfold inbound.
  rewrite (tokens_three_quoted _ _ _ _ _ _ _ Hh Hsrc Hs1 Ha Hs2 Hst), Hcmt.
  destruct (first_token_of_tail tail) as [rest ->].
  unfold strptime_format in Htime.
  unfold bind, list_subscript. cbn [lookup list_lookup ret List.length].
  change (String.eqb "+CMT:" "+CMT:") with true. rewrite Htime. cbn [ret].
  match goal with
  | |- context [0 <? ?x] => replace (0 <? x) with true by (symmetry; apply Z.ltb_lt; lia)
  end.
  destruct (handle_message cfg world timestamp (Py.strip source) _ m) as [[r m'] tr].
  reflexivity.
Qed.

(** X11: a chunk whose header strips to something that starts with
    "+CUSD:", followed by a quoted field, is a USSD answer: the field,
    stripped, goes to the notification handler at informational level,
    and nothing else happens. *)
Theorem inbound_ussd_relayed (header text tail : string) (m : Machine) :
  has_char "034" header = false ->
  Py.startswith (Py.strip header) "+CUSD:" = true ->
  has_char "034" text = false ->
  is_Some (notification_handler (self m)) ->
  inbound cfg world strptime (one_quoted header text tail) m
  = (Ret tt, m, [Notify "gsm" (Py.strip text) INFO]).
Proof.
  intros Hh Hcusd Ht Hhandler. unfold inbound.
  rewrite (tokens_one_quoted _ _ _ Hh Ht).
  match goal with
  | |- context [0 <? ?x] =>
      replace (0 <? x) with true by (symmetry; apply Z.ltb_lt; cbn [List.length]; lia)
  end.
  unfold bind, list_subscript. cbn [lookup list_lookup ret].
  destruct (String.eqb (Py.strip header) "+CMT:") eqn:Hcmt.
  { apply String.eqb_eq in Hcmt. rewrite Hcmt in Hcusd. discriminate. }
  rewrite Hcusd, (handler_notify_spec _ _ _ _ Hhandler). reflexivity.
Qed.

(** X12: a chunk whose first token is "+CMT:" but which has fewer than
    seven tokens never reaches [handle_message]: [inbound] raises an
    [IndexError], or a [ValueError] when the sixth token is there and is no
    time stamp, and does nothing else. *)
Theorem inbound_sms_too_short (data : string) (m : Machine) :
  map Py.strip (Py.split "034" (Py.strip data)) !! 0%nat = Some "+CMT:" ->
  (List.length (map Py.strip (Py.split "034" (Py.strip data))) < 7)%nat ->
  exists e,
    inbound cfg world strptime data m = (Raise e, m, [])
    /\ (e = IndexError \/ e = ValueError).
Proof.
  unfold inbound. set (tokens := map Py.strip _). intros H0 Hlen.
  destruct tokens as [|t0 [|t1 [|t2 [|t3 [|t4 [|t5 [|t6 ts]]]]]]];
    cbn [List.length] in Hlen; try lia; try discriminate;
    injection H0 as ->;
    match goal with
    | |- context [0 <? ?x] =>
        replace (0 <? x) with true by (symmetry; apply Z.ltb_lt; cbn [List.length]; lia)
    end;
    unfold bind, list_subscript; cbn [lookup list_lookup ret];
    change (String.eqb "+CMT:" "+CMT:") with true; cbv iota;
    try (exists IndexError; split; [reflexivity | left; reflexivity]).
  destruct (strptime _ _); cbn.
  - exists IndexError; split; [reflexivity | left; reflexivity].
  - exists ValueError; split; [reflexivity | right; reflexivity].
Qed.

End InboundFacts.

(** ** The worker loop *)

Section RunFacts.
Variable cfg : Config.
Variable world : World.
Variable lt : SortableTuple -> SortableTuple -> bool.
Variable strptime : string -> string -> option datetime.

Lemma handle_message_frame (timestamp : datetime) (source body : string) (m : Machine) :
  let '(r, m', tr) := handle_message cfg world timestamp source body m in
  (r = Ret tt \/ exists e, r = Raise e) /\ same_registrations m m'.
Proof.
  destruct (alarm (self m)) as [a|] eqn:Ha.
  - destruct (notification_handler (self m)) as [h|] eqn:Hh.
    + assert (Hh' : is_Some (notification_handler (self m))) by (rewrite Hh; eexists; reflexivity).
      destruct (Py.str_in source (GSM_CONTACTS cfg)) eqn:Hsrc.
      * rewrite handle_message_listed by (try assumption; rewrite Ha; eexists; reflexivity).
        unfold bind. rewrite (handler_notify_spec _ _ _ _ Hh').
        destruct (send_command_returns_None body m) as (tr & -> & _).
        pose proof (send_sms_spec cfg world source ("REJECTED: " +:+ body) m) as Hsms.
        destruct (send_sms cfg world source ("REJECTED: " +:+ body) m) as [[r1 m1] tr1].
        destruct Hsms as (-> & Hreg & _).
        assert (Hh1 : is_Some (notification_handler (self m1))).
        { destruct Hreg as (_ & -> & _). exact Hh'. }
        rewrite (handler_notify_spec _ _ _ _ Hh1). split; [left; reflexivity | exact Hreg].
      * unfold handle_message, bind. cbn [get_self]. rewrite Ha, Hsrc.
        rewrite !(handler_notify_spec _ _ _ _ Hh').
        split; [left; reflexivity | apply same_registrations_refl].
    + unfold handle_message, bind, handler_notify. cbn [get_self]. rewrite Ha.
      unfold bind. cbn [get_self]. rewrite Hh. cbn.
      split; [right; eexists; reflexivity | apply same_registrations_refl].
  - unfold handle_message, bind. cbn [get_self]. rewrite Ha. cbn.
    split; [left; reflexivity | apply same_registrations_refl].
Qed.

Lemma handler_notify_frame (source message : string) (level : Z) (m : Machine) :
  let '(r, m', tr) := handler_notify source message level m in
  (r = Ret tt \/ exists e, r = Raise e) /\ same_registrations m m'.
Proof.
  unfold handler_notify, bind. cbn [get_self].
  destruct (notification_handler (self m)); cbn.
  - split; [left; reflexivity | apply same_registrations_refl].
  - split; [right; eexists; reflexivity | apply same_registrations_refl].
Qed.

Lemma inbound_frame (data : string) (m : Machine) :
  let '(r, m', tr) := inbound cfg world strptime data m in
  (r = Ret tt \/ exists e, r = Raise e) /\ same_registrations m m'.
Proof.
  unfold inbound. set (tokens := map Py.strip _).
  assert (Hstop : forall e : Exn,
             (@Raise unit e = Ret tt \/ exists e', @Raise unit e = Raise e')
             /\ same_registrations m m).
  { intros e. split; [right; eexists; reflexivity | apply same_registrations_refl]. }
  destruct (0 <? Z.of_nat (List.length tokens));
    [|cbn; split; [left; reflexivity | apply same_registrations_refl]].
  unfold bind at 1, list_subscript at 1.
  destruct (tokens !! 0%nat) as [t0|]; [|exact (Hstop IndexError)]. cbn [ret].
  destruct (String.eqb t0 "+CMT:").
  - unfold bind at 1, list_subscript at 1.
    destruct (tokens !! 1%nat) as [source|]; [|exact (Hstop IndexError)]. cbn [ret].
    unfold bind at 1, list_subscript at 1.
    destruct (tokens !! 5%nat) as [t5|]; [|exact (Hstop IndexError)]. cbn [ret].
    unfold bind at 1.
    destruct (strptime _ _) as [timestamp|]; [|exact (Hstop ValueError)]. cbn [ret].
    unfold bind at 1, list_subscript at 1.
    destruct (tokens !! 6%nat) as [message|]; [|exact (Hstop IndexError)]. cbn [ret].
    pose proof (handle_message_frame timestamp source message m) as H.
    destruct (handle_message cfg world timestamp source message m) as [[r m'] tr].
    exact H.
  - destruct (Py.startswith t0 "+CUSD:").
    + unfold bind at 1, list_subscript at 1.
      destruct (tokens !! 1%nat) as [t1|]; [|exact (Hstop IndexError)]. cbn [ret].
      pose proof (handler_notify_frame name t1 INFO m) as H.
      destruct (handler_notify name t1 INFO m) as [[r m'] tr]. exact H.
    + cbn. split; [left; reflexivity | apply same_registrations_refl].
Qed.

(** The read step of a round: whatever is read and whatever becomes of
    it, the step returns; an exception only takes the connection flag
    down. *)
Lemma read_step_returns (m : Machine) :
  let '(r, m', tr) :=
    try_except
      (let* s := get_self in
       let* data := port_read_call world (port s) 200 in
       if (0 <? Z.of_nat (String.length data)) then inbound cfg world strptime data
       else run_loop cfg world lt ;;; ret tt)
      (fun _ => modify (with_modem_connected false)) m in
  r = Ret tt
  /\ alarm (self m') = alarm (self m)
  /\ notification_handler (self m') = notification_handler (self m)
  /\ stop_running (self m') = stop_running (self m).
Proof.
  unfold try_except. unfold bind at 1. cbn [get_self]. unfold bind at 1, port_read_call.
  destruct (port (self m)) as [p|]; [|cbn; repeat split].
  unfold bind at 1. cbn [next_tick].
  destruct (port_read world (tick m) p 200) as [data|]; unfold bind at 1; cbn [emit ret raise];
    [|cbn; repeat split].
  destruct (0 <? Z.of_nat (String.length data)).
  - pose proof (inbound_frame data {| self := self m; tick := S (tick m) |}) as H.
    destruct (inbound cfg world strptime data _) as [[r m'] tr].
    destruct H as (Hr & Ha & Hh & Hs & _). cbn in Ha, Hh, Hs.
    destruct Hr as [-> | [e ->]]; cbn; repeat split; assumption.
  - unfold bind at 1.
    pose proof (run_loop_frame cfg world lt {| self := self m; tick := S (tick m) |}) as H.
    destruct (run_loop cfg world lt _) as [[r m'] tr].
    destruct H as (-> & Ha & Hh & Hs & _). cbn in Ha, Hh, Hs. cbn. repeat split; assumption.
Qed.

(** X13: a round of the worker loop in which [connected] says yes, the
    modem being connected already or the device opening and taking the
    initialisation, always returns: no failure of the device on the read,
    no malformed chunk, no missing collaborator and nothing that goes
    wrong with a queued item raises out of it. The stop flag is not
    consulted in such a round, whatever it holds; the round keeps it, the
    alarm and the notification handler, and it begins with the one-second
    sleep followed by what [connected] did. *)
Theorem run_iteration_never_raises (fuel : nat) (m m1 : Machine) (tr1 : list Event) :
  connected cfg world m = (Ret true, m1, tr1) ->
  exists m' tr,
    run_iteration cfg world lt strptime (S fuel) m = (Ret tt, m', Sleep 1000 :: tr1 ++ tr)
    /\ alarm (self m') = alarm (self m)
    /\ notification_handler (self m') = notification_handler (self m)
    /\ stop_running (self m') = stop_running (self m).
Proof.
  intros Hconn. unfold run_iteration. unfold bind at 1. cbn [sleep emit]. unfold bind at 1.
  cbn [reconnect_loop]. unfold bind at 1.
  pose proof (connected_spec cfg world m) as Hspec. rewrite Hconn in *.
  destruct Hspec as ((Ha1 & Hh1 & Hs1 & _) & _). cbn [negb ret].
  pose proof (read_step_returns m1) as Hread.
  set (step := try_except _ _) in *.
  destruct (step m1) as [[r2 m2] tr2].
  destruct Hread as (-> & Ha2 & Hh2 & Hs2).
  exists m2, tr2. split; [cbn; rewrite app_nil_r; reflexivity |]. repeat split; congruence.
Qed.


Lemma connected_unplugged (m : Machine) :
  modem_connected (self m) = false ->
  serial_Serial world (tick m) (GSM_MODEM_PORT cfg) (GSM_MODEM_BAUDRATE cfg) = false ->
  connected cfg world m
  = (Ret false, {| self := self m; tick := S (tick m) |},
     [SerialOpen (GSM_MODEM_PORT cfg) (GSM_MODEM_BAUDRATE cfg) None]).
Proof.
  intros Hflag Hclosed. unfold connected, try_except, Serial, bind. cbn [get_self next_tick].
  rewrite Hflag. cbn [get_self next_tick]. rewrite Hclosed. reflexivity.
Qed.

(** X16: if the reconnection loop is entered with the stop flag up and
    the device cannot be opened, it never ends: each round is one failed
    attempt to open and a ten-second sleep. *)
Theorem reconnect_loop_spins (fuel : nat) :
  (forall t, serial_Serial world t (GSM_MODEM_PORT cfg) (GSM_MODEM_BAUDRATE cfg) = false) ->
  forall m : Machine,
    stop_running (self m) = true ->
    modem_connected (self m) = false ->
    reconnect_loop cfg world fuel m
    = (Diverge, {| self := self m; tick := (fuel + tick m)%nat |},
       List.concat
         (repeat [SerialOpen (GSM_MODEM_PORT cfg) (GSM_MODEM_BAUDRATE cfg) None; Sleep 10000]
            fuel)).
Proof.
  intros Hclosed. induction fuel as [|fuel IH]; intros m Hstop Hflag.
  - destruct m. reflexivity.
  - cbn [reconnect_loop]. unfold bind at 1.
    rewrite (connected_unplugged m Hflag (Hclosed _)). cbn [negb].
    unfold bind at 1. cbn [get_self self]. rewrite Hstop. unfold bind at 1. cbn [sleep emit].
    rewrite (IH {| self := self m; tick := S (tick m) |} Hstop Hflag). cbn.
    replace (fuel + S (tick m))%nat with (S (fuel + tick m)) by lia. reflexivity.
Qed.

End RunFacts.

(** ** From the entry points to the wire *)

Section EndToEnd.
Variable cfg : Config.
Variable world : World.
Variable lt : SortableTuple -> SortableTuple -> bool.

(** X17: a reconnection that opens the device puts the new port object
    in [self.port] at once, whether or not the initialisation then goes
    through; the port object it replaces is not closed. *)
Theorem connected_opens_anew (m : Machine) :
  modem_connected (self m) = false ->
  serial_Serial world (tick m) (GSM_MODEM_PORT cfg) (GSM_MODEM_BAUDRATE cfg) = true ->
  let '(r, m', tr) := connected cfg world m in
  port (self m') = Some (tick m)
  /\ hd_error tr
     = Some (SerialOpen (GSM_MODEM_PORT cfg) (GSM_MODEM_BAUDRATE cfg) (Some (tick m)))
  /\ (forall p, ~ In (PortClose p) tr).
Proof.
  intros Hflag Hopen.
  pose proof (connected_spec cfg world m) as Hspec.
  unfold connected in *. unfold bind at 1 in Hspec. unfold bind at 1.
  cbn [get_self] in *. rewrite Hflag in *.
  unfold bind at 1 in Hspec. unfold bind at 1.
  unfold try_except, Serial in *. unfold bind at 1 in Hspec. unfold bind at 1.
  unfold bind at 1 in Hspec. unfold bind at 1. cbn [next_tick] in *. rewrite Hopen in *.
  unfold bind at 1 in Hspec. unfold bind at 1. cbn [emit ret] in *.
  unfold bind at 1 in Hspec. unfold bind at 1. cbn [modify] in *.
  pose proof (init_loop_spec world commands
                {| self := with_port (Some (tick m)) (self m); tick := S (tick m) |}) as Hinit.
  destruct (init_loop world commands _) as [[r1 m1] tr1].
  destruct Hinit as (Hself & _ & Hres).
  assert (Hclose : forall (tr : list Event) (p : Port),
             Forall (fun e => is_connect_event e = true) tr -> ~ In (PortClose p) tr).
  { intros tr p Hall Hin. rewrite Forall_forall in Hall.
    apply list_elem_of_In in Hin. specialize (Hall _ Hin). discriminate. }
  destruct Hres as [[-> _] | [[-> | [e ->]] _]]; cbn in Hspec |- *;
    destruct Hspec as (_ & Hev & _);
    (split; [rewrite Hself; reflexivity |]); (split; [reflexivity |]);
    intros p; exact (Hclose _ p Hev).
Qed.

Lemma event_enqueues (raw : RawEvent) (major minor : Z) (major_text minor_text : string)
    (m : Machine) :
  raw !! "major" = Some (major, major_text) ->
  raw !! "minor" = Some (minor, minor_text) ->
  critical_codes major minor ->
  event lt raw m = queue_put_nowait lt (2, "event", PRaw raw) m.
Proof.
  intros Hmajor Hminor Hcrit. unfold event, bind, subscript. rewrite Hmajor, Hminor.
  cbn [ret fst snd].
  destruct (major =? 37) eqn:H37; [reflexivity |].
  destruct (major =? 2) eqn:H2.
  - destruct (minor =? 6) eqn:H6; [reflexivity |].
    apply Z.eqb_neq in H37, H6. apply Z.eqb_eq in H2. unfold critical_codes in Hcrit. lia.
  - destruct (major =? 40) eqn:H40.
    + destruct (existsb (Z.eqb minor) [0; 1; 2; 3; 4; 5]) eqn:Hin; [reflexivity |].
      exfalso. apply Z.eqb_neq in H37, H2. unfold critical_codes in Hcrit.
      destruct Hcrit as [? | [[? ?] | [_ Hm]]]; try lia.
      assert (existsb (Z.eqb minor) [0; 1; 2; 3; 4; 5] = true) as Ht.
      { apply existsb_exists. exists minor. split; [exact Hm | apply Z.eqb_refl]. }
      congruence.
    + apply Z.eqb_neq in H37, H2, H40. unfold critical_codes in Hcrit. lia.
Qed.

(** [run_loop] on a queue of one notification, and of one event. *)
Lemma run_loop_one_notify (priority : Z) (source message : Py.str) (level : Z)
    (m : Machine) :
  queue (self m) = [(priority, "notify", PNotify source message level)] ->
  run_loop cfg world lt m
  = (let '(r, m', tr) :=
       send_message cfg world (Py.add (Py.add source ": ") message)
         {| self := with_queue [] (self m); tick := tick m |} in
     (match r with Ret _ | Raise _ => Ret true | Diverge => Diverge end, m', tr)).
Proof.
  intros Hq.
  unfold run_loop, try_except, queue_get, bind. cbn [get_self]. rewrite Hq.
  change (Heapq.heappop lt [(priority, "notify", PNotify source message level)])
    with (Some ((priority, "notify", PNotify source message level), @nil SortableTuple)).
  unfold modify, payload_subscript, ret. cbv beta iota.
  change (String.eqb "notify" "change") with false.
  change (String.eqb "notify" "event") with false.
  change (String.eqb "notify" "notify") with true. cbv beta iota.
  destruct (send_message cfg world (Py.add (Py.add source ": ") message) _) as [[[[]| |] m'] tr];
    cbn; rewrite ?app_nil_r; reflexivity.
Qed.

Lemma run_loop_one_event (priority : Z) (raw : RawEvent) (m : Machine) :
  steady world -> modem_connected (self m) = true -> is_Some (port (self m)) ->
  queue (self m) = [(priority, "event", PRaw raw)] ->
  let '(r, m', tr) := run_loop cfg world lt m in
  r = Ret true /\ self m' = with_queue [] (self m)
  /\ written tr = map (fun contact => ("ATD" +:+ contact) +:+ Py.CRLF) (GSM_CONTACTS cfg).
Proof.
  intros Hsteady Hflag Hport Hq.
  pose proof (handle_event_steady cfg world (PRaw raw)
                {| self := with_queue [] (self m); tick := tick m |} Hsteady Hflag Hport)
    as Hdial.
  unfold run_loop, try_except, queue_get, bind. cbn [get_self]. rewrite Hq.
  change (Heapq.heappop lt [(priority, "event", PRaw raw)])
    with (Some ((priority, "event", PRaw raw), @nil SortableTuple)).
  unfold modify, ret. cbv beta iota.
  change (String.eqb "event" "change") with false.
  change (String.eqb "event" "event") with true. cbv beta iota.
  destruct (handle_event cfg world (PRaw raw) _) as [[r m'] tr].
  destruct Hdial as (-> & Hself & Hw). cbn. rewrite ?app_nil_r.
  split; [reflexivity |]. split; [exact Hself | exact Hw].
Qed.

Lemma empty_queue_restored (item : SortableTuple) (m : Machine) :
  queue (self m) = [] ->
  queue (self (enqueued lt item m)) = [item]
  /\ with_queue [] (self (enqueued lt item m)) = self m.
Proof.
  intros Hq. destruct m as [[] ?]. cbn in Hq. subst. split; reflexivity.
Qed.

(** X18: from the entry points to the wire, on a connected channel with a
    steady device and an empty queue. A notification another channel
    posts at CRITICAL or above is, at the next queue step, sent as the SMS
    "<source>: <message>" to every contact when latin-1 can encode that
    text; when it cannot, the notification is taken off the queue all the
    same and its text is never written: only headers, terminators and
    initialisation commands are. An event with critical codes is answered
    by dialling every contact. In each case the queue is empty again
    afterwards, and where the text was sent or the contacts dialled the
    object is as it was. *)
Theorem queue_step_delivers (m : Machine) :
  steady world -> modem_connected (self m) = true -> is_Some (port (self m)) ->
  queue (self m) = [] ->
  (forall (source message : Py.str) (level : Z) (line : string),
      source <> "gsm" -> CRITICAL <= level ->
      Py.encode (Py.add (Py.add (Py.add source ": ") message) Py.CRLF) = Some line ->
      let '(r, m', tr) := (notify lt source message level ;;; run_loop cfg world lt) m in
      r = Ret true /\ self m' = self m
      /\ written tr
         = List.concat (map (fun dst => sms_frame dst line) (GSM_CONTACTS cfg)))
  /\ (forall (source message : Py.str) (level : Z),
        source <> "gsm" -> CRITICAL <= level ->
        Py.encode (Py.add (Py.add (Py.add source ": ") message) Py.CRLF) = None ->
        let '(r, m', tr) := (notify lt source message level ;;; run_loop cfg world lt) m in
        r = Ret true /\ queue (self m') = [] /\ Forall (framing cfg) (written tr))
  /\ (forall (raw : RawEvent) (major minor : Z) (major_text minor_text : string),
        raw !! "major" = Some (major, major_text) ->
        raw !! "minor" = Some (minor, minor_text) ->
        critical_codes major minor ->
        let '(r, m', tr) := (event lt raw ;;; run_loop cfg world lt) m in
        r = Ret true /\ self m' = self m
        /\ written tr
           = map (fun contact => ("ATD" +:+ contact) +:+ Py.CRLF) (GSM_CONTACTS cfg)).
Proof.
  intros Hsteady Hflag Hport Hq.
  assert (Hput : forall (source message : Py.str) (level : Z),
             source <> "gsm" -> CRITICAL <= level ->
             notify lt source message level m
             = (Ret tt, enqueued lt (2, "notify", PNotify source message level) m, [])).
  { intros source message level Hsrc Hlevel. unfold notify, name.
    apply str_eqb_neq in Hsrc. rewrite Hsrc.
    replace (level <? CRITICAL) with false by (symmetry; apply Z.ltb_ge; exact Hlevel).
    apply queue_put_nowait_spec. }
  split; [|split].
  - intros source message level line Hsrc Hlevel Hline. unfold bind at 1.
    rewrite (Hput source message level Hsrc Hlevel).
    destruct (empty_queue_restored (2, "notify", PNotify source message level) m Hq)
      as [Hq1 Hback].
    rewrite (run_loop_one_notify 2 source message level _ Hq1). rewrite Hback.
    destruct (send_message_steady cfg world (Py.add (Py.add source ": ") message)
                {| self := self m; tick := tick (enqueued lt (2, "notify", PNotify source message level) m) |})
      as (_ & Hsend & _).
    specialize (Hsend line Hline Hsteady Hflag Hport).
    destruct (send_message cfg world _ _) as [[r m'] tr].
    destruct Hsend as (-> & Hself & Hw).
    split; [reflexivity |]. split; [exact Hself | exact Hw].
  - intros source message level Hsrc Hlevel Hnone. unfold bind at 1.
    rewrite (Hput source message level Hsrc Hlevel).
    destruct (empty_queue_restored (2, "notify", PNotify source message level) m Hq)
      as [Hq1 Hback].
    rewrite (run_loop_one_notify 2 source message level _ Hq1). rewrite Hback.
    destruct (send_message_steady cfg world (Py.add (Py.add source ": ") message)
                {| self := self m; tick := tick (enqueued lt (2, "notify", PNotify source message level) m) |})
      as (_ & _ & Hsend).
    specialize (Hsend Hnone).
    pose proof (send_message_frame cfg world (Py.add (Py.add source ": ") message)
                  {| self := self m; tick := tick (enqueued lt (2, "notify", PNotify source message level) m) |})
      as Hframe.
    destruct (send_message cfg world _ _) as [[r m'] tr].
    destruct Hsend as (-> & Hw). destruct Hframe as (_ & (_ & _ & _ & Hqueue) & _).
    cbn [self] in Hqueue. split; [reflexivity |]. split; [congruence | exact Hw].
  - intros raw major minor major_text minor_text Hmajor Hminor Hcrit. unfold bind at 1.
    rewrite (event_enqueues raw major minor major_text minor_text m Hmajor Hminor Hcrit).
    rewrite queue_put_nowait_spec.
    destruct (empty_queue_restored (2, "event", PRaw raw) m Hq) as [Hq1 Hback].
    pose proof (run_loop_one_event 2 raw (enqueued lt (2, "event", PRaw raw) m)
                  Hsteady Hflag Hport Hq1) as Hrun.
    destruct (run_loop cfg world lt _) as [[r m'] tr].
    destruct Hrun as (-> & Hself & Hw). rewrite Hback in Hself.
    split; [reflexivity |]. split; [exact Hself | exact Hw].
Qed.

(** X19: every message from a listed contact, whatever it says, gets one
    SMS in reply, and that reply is "REJECTED: <body>": on a connected
    channel with a steady device its three lines are all that is written.
    Two notifications go to the handler, the echo and the rejection, and
    the alarm is called once at most. This holds for a valid command too,
    whose alarm method has then been called. *)
Theorem listed_sender_always_rejected (timestamp : datetime) (source body : string)
    (m : Machine) :
  is_Some (alarm (self m)) ->
  is_Some (notification_handler (self m)) ->
  Py.str_in source (GSM_CONTACTS cfg) = true ->
  steady world -> modem_connected (self m) = true -> is_Some (port (self m)) ->
  let '(r, m', tr) := handle_message cfg world timestamp source body m in
  r = Ret tt
  /\ self m' = self m
  /\ written tr = sms_lines source ("REJECTED: " +:+ body)
  /\ notifications tr
     = [Notify "gsm" (source +:+ ": " +:+ body) INFO;
        Notify "gsm" ("REJECTED: " +:+ source +:+ ": " +:+ body) INFO]
  /\ (List.length (alarm_calls tr) <= 1)%nat.
Proof.
  intros Ha Hh Hsrc Hsteady Hflag Hport.
  rewrite (handle_message_listed cfg world timestamp source body m Ha Hh Hsrc).
  unfold bind. rewrite (handler_notify_spec _ _ _ _ Hh).
  destruct (send_command_returns_None body m) as (trc & -> & Hlen & Hcalls).
  pose proof (send_sms_steady cfg world source ("REJECTED: " +:+ body) m Hsteady Hflag Hport)
    as Hsms.
  pose proof (send_sms_spec cfg world source ("REJECTED: " +:+ body) m) as Hframe.
  destruct (send_sms cfg world source ("REJECTED: " +:+ body) m) as [[r1 m1] tr1].
  destruct Hsms as (-> & Hself & Hw). destruct Hframe as (_ & _ & Hev).
  assert (Hh1 : is_Some (notification_handler (self m1))) by (rewrite Hself; exact Hh).
  rewrite (handler_notify_spec _ _ _ _ Hh1).
  destruct (port_trace_projections _ Hev) as [Hc1 Hn1].
  assert (Hwc : written trc = [] /\ notifications trc = [] /\ alarm_calls trc = trc).
  { clear -Hcalls. induction Hcalls as [|e trc He _ (IHw & IHn & IHa)]; [repeat split |].
    destruct e; try discriminate; unfold notifications, alarm_calls in *; cbn;
      rewrite ?IHa; repeat split; assumption. }
  destruct Hwc as (Hwc & Hnc & Hac).
  split; [reflexivity |]. split; [exact Hself |].
  unfold notifications, alarm_calls in *. cbn [app].
  split. { cbn [written]. rewrite !written_app, Hwc, Hw. reflexivity. }
  split. { cbn [List.filter is_notify]. rewrite !List.filter_app, Hnc, Hn1. reflexivity. }
  cbn [List.filter is_alarm_call]. rewrite !List.filter_app, Hac, Hc1. cbn.
  rewrite app_nil_r. exact Hlen.
Qed.

End EndToEnd.

(** ** The further properties at concrete inputs *)

Lemma healthy_steady : steady Scenario.healthy.
Proof. split; [intros; discriminate | reflexivity]. Qed.

Lemma handle_event_dials_every_contact_witness :
  let '(r, m', tr) :=
    handle_event Scenario.two_contacts Scenario.healthy (PRaw Scenario.panic) Scenario.online in
  r = Ret tt
  /\ self m' = self Scenario.online
  /\ written tr = map (fun contact => ("ATD" +:+ contact) +:+ Py.CRLF)
                     (GSM_CONTACTS Scenario.two_contacts).
Proof.
  apply (handle_event_dials_every_contact Scenario.two_contacts Scenario.healthy
           (PRaw Scenario.panic) Scenario.online).
  - exact healthy_steady.
  - reflexivity.
  - eexists. reflexivity.
Defined.

Lemma send_message_fans_out_witness :
  (let '(r, m', tr) :=
     send_message Scenario.two_contacts Scenario.healthy "mqtt: Fire" Scenario.online in
   r = Ret tt
   /\ self m' = self Scenario.online
   /\ written tr = List.concat (map (fun dst => sms_frame dst ("mqtt: Fire" +:+ Py.CRLF))
                                  (GSM_CONTACTS Scenario.two_contacts)))
  /\ (let '(r, m', tr) :=
        send_message Scenario.two_contacts Scenario.healthy Scenario.euro Scenario.online in
      r = Ret tt /\ Forall (framing Scenario.two_contacts) (written tr)).
Proof.
  split.
  - apply (send_message_fans_out Scenario.two_contacts Scenario.healthy "mqtt: Fire"
             Scenario.online).
    + reflexivity.
    + exact healthy_steady.
    + reflexivity.
    + eexists. reflexivity.
  - apply (send_message_fans_out Scenario.two_contacts Scenario.healthy Scenario.euro
             Scenario.online).
    reflexivity.
Defined.

(** The text that cannot be encoded costs each contact a reopening of the
    device: the header, the five commands, the terminator. *)
Example euro_never_written :
  written (send_message Scenario.two_contacts Scenario.healthy Scenario.euro
             Scenario.online).2
  = List.concat
      (map (fun dst =>
              [("AT+CMGS=" +:+ Py.dquote +:+ dst +:+ Py.dquote) +:+ Py.CRLF]
              ++ commands ++ [(Py.SUB +:+ Py.CRLF) +:+ Py.CRLF])
         (GSM_CONTACTS Scenario.two_contacts)).
Proof. reflexivity. Qed.

Lemma inbound_sms_parsed_witness :
  inbound Scenario.cfg Scenario.healthy Scenario.strptime_noon Scenario.sms_chunk
    Scenario.online
  = handle_message Scenario.cfg Scenario.healthy Scenario.noon
      (Py.strip "+15550100")
      (Py.strip (before_quote (Py.CRLF +:+ "output siren on" +:+ Py.CRLF)))
      Scenario.online.
Proof.
  apply (inbound_sms_parsed Scenario.cfg Scenario.healthy Scenario.strptime_noon
           (Py.CRLF +:+ "+CMT: ") "+15550100" "," EmptyString "," Scenario.stamp
           (Py.CRLF +:+ "output siren on" +:+ Py.CRLF) Scenario.noon Scenario.online);
    reflexivity.
Defined.

Lemma inbound_ussd_relayed_witness :
  inbound Scenario.cfg Scenario.healthy Scenario.strptime_noon Scenario.ussd_chunk
    Scenario.online
  = (Ret tt, Scenario.online, [Notify "gsm" (Py.strip "Balance 5.00 EUR") INFO]).
Proof.
  apply (inbound_ussd_relayed Scenario.cfg Scenario.healthy Scenario.strptime_noon
           (Py.CRLF +:+ "+CUSD: 0,") "Balance 5.00 EUR" (",15" +:+ Py.CRLF) Scenario.online).
  - reflexivity.
  - reflexivity.
  - reflexivity.
  - eexists. reflexivity.
Defined.

Lemma inbound_sms_too_short_witness :
  exists e,
    inbound Scenario.cfg Scenario.healthy Scenario.strptime_noon Scenario.bare_chunk
      Scenario.online = (Raise e, Scenario.online, [])
    /\ (e = IndexError \/ e = ValueError).
Proof.
  apply (inbound_sms_too_short Scenario.cfg Scenario.healthy Scenario.strptime_noon
           Scenario.bare_chunk Scenario.online).
  - reflexivity.
  - vm_compute. lia.
Defined.

Lemma run_iteration_never_raises_witness :
  exists m' tr,
    run_iteration Scenario.cfg (Scenario.receiving Scenario.bare_chunk) lt_priority
      Scenario.strptime_noon 1 (Scenario.stopped Scenario.online)
    = (Ret tt, m', Sleep 1000 :: [] ++ tr)
    /\ alarm (self m') = alarm (self (Scenario.stopped Scenario.online))
    /\ notification_handler (self m')
       = notification_handler (self (Scenario.stopped Scenario.online))
    /\ stop_running (self m') = stop_running (self (Scenario.stopped Scenario.online)).
Proof.
  apply (run_iteration_never_raises Scenario.cfg (Scenario.receiving Scenario.bare_chunk)
           lt_priority Scenario.strptime_noon 0 (Scenario.stopped Scenario.online)
           (Scenario.stopped Scenario.online) []).
  reflexivity.
Defined.


Lemma reconnect_loop_spins_witness :
  reconnect_loop Scenario.cfg Scenario.unplugged 2 Scenario.stopping
  = (Diverge, {| self := self Scenario.stopping; tick := 3 |},
     [SerialOpen "/dev/ttyUSB0" 9600 None; Sleep 10000;
      SerialOpen "/dev/ttyUSB0" 9600 None; Sleep 10000]).
Proof.
  apply (reconnect_loop_spins Scenario.cfg Scenario.unplugged 2 (fun _ => eq_refl)
           Scenario.stopping).
  - reflexivity.
  - reflexivity.
Defined.

Lemma connected_opens_anew_witness :
  let '(r, m', tr) := connected Scenario.cfg Scenario.healthy Scenario.dropped in
  port (self m') = Some 1%nat
  /\ hd_error tr = Some (SerialOpen "/dev/ttyUSB0" 9600 (Some 1%nat))
  /\ (forall p, ~ In (PortClose p) tr).
Proof.
  apply (connected_opens_anew Scenario.cfg Scenario.healthy Scenario.dropped).
  - reflexivity.
  - reflexivity.
Defined.

Lemma queue_step_delivers_witness :
  (let '(r, m', tr) :=
     (notify lt_priority "mqtt" "Fire" CRITICAL ;;;
      run_loop Scenario.two_contacts Scenario.healthy lt_priority) Scenario.online in
   r = Ret true
   /\ self m' = self Scenario.online
   /\ written tr = List.concat (map (fun dst => sms_frame dst ("mqtt: Fire" +:+ Py.CRLF))
                                  (GSM_CONTACTS Scenario.two_contacts)))
  /\ (let '(r, m', tr) :=
        (notify lt_priority "mqtt" Scenario.euro CRITICAL ;;;
         run_loop Scenario.two_contacts Scenario.healthy lt_priority) Scenario.online in
      r = Ret true /\ queue (self m') = []
      /\ Forall (framing Scenario.two_contacts) (written tr)).
Proof.
  destruct (queue_step_delivers Scenario.two_contacts Scenario.healthy lt_priority
              Scenario.online) as (Hnotify & Hlost & _).
  - exact healthy_steady.
  - reflexivity.
  - eexists. reflexivity.
  - reflexivity.
  - split.
    + apply (Hnotify "mqtt" "Fire" CRITICAL ("mqtt: Fire" +:+ Py.CRLF));
        [discriminate | discriminate | reflexivity].
    + apply (Hlost "mqtt" Scenario.euro CRITICAL); [discriminate | discriminate | reflexivity].
Defined.

Lemma listed_sender_always_rejected_witness :
  let '(r, m', tr) :=
    handle_message Scenario.cfg Scenario.healthy Scenario.noon
      "+15550100" "output siren on" Scenario.online in
  r = Ret tt
  /\ self m' = self Scenario.online
  /\ written tr = sms_lines "+15550100" ("REJECTED: " +:+ "output siren on")
  /\ notifications tr
     = [Notify "gsm" ("+15550100" +:+ ": " +:+ "output siren on") INFO;
        Notify "gsm" ("REJECTED: " +:+ "+15550100" +:+ ": " +:+ "output siren on") INFO]
  /\ (List.length (alarm_calls tr) <= 1)%nat.
Proof.
  apply (listed_sender_always_rejected Scenario.cfg Scenario.healthy Scenario.noon
           "+15550100" "output siren on" Scenario.online).
  - eexists. reflexivity.
  - eexists. reflexivity.
  - reflexivity.
  - exact healthy_steady.
  - reflexivity.
  - eexists. reflexivity.
Defined.

(** ** What [write] hands back, and an SMS to a modem that is gone *)

Section WriteFacts.
Variable cfg : Config.
Variable world : World.

(** The drain loop on a script on which no call raises: one test and one
    read for each poll that finds something waiting, then the test that
    finds nothing; the data is what it began with and what was read. *)
Lemma drain_loop_answer (p : Port) (script : list poll) :
  script_ok script = true ->
  forall data : string,
  exists k : Z,
    k <= 0
    /\ drain_loop p script data
       = ((data +:+ answer script, None),
          List.concat (map (drain_round p) (waiting script)) ++ [PortInWaiting p (Some k)]).
Proof.
  unfold answer.
  induction script as [|[n r|] script IH]; intros Hok data; cbn [drain_loop script_ok waiting] in *.
  - exists 0. split; [lia |]. cbn. rewrite append_nil_r. reflexivity.
  - destruct (n >? 0) eqn:Hn.
    + destruct r as [b|]; [|discriminate].
      destruct (IH Hok (data +:+ b)) as (k & Hk & ->). exists k. split; [exact Hk |].
      cbn. rewrite append_assoc. reflexivity.
    + exists n. split; [lia |]. destruct r; cbn; rewrite append_nil_r; reflexivity.
  - discriminate.
Qed.

(** X20: on a connected channel, when the message can be encoded, the
    port takes the line and the polls that follow raise nothing, [write]
    hands the encoded line to the port, sleeps a tenth of a second, and
    then, for as long as the device says something is waiting, tests
    [in_waiting] and reads; it stops at the first test that finds nothing
    waiting. It returns as text the bytes those reads returned, joined in
    order and stripped of ASCII whitespace at both ends, and leaves the
    object as it was. *)
Theorem write_returns_answer (message : Py.str) (line : string) (m : Machine) (p : Port)
    (n : Z) :
  modem_connected (self m) = true ->
  port (self m) = Some p ->
  Py.encode (Py.add message Py.CRLF) = Some line ->
  port_write world (tick m) p line = Some n ->
  script_ok (port_pending world (S (tick m)) p) = true ->
  exists k : Z,
    k <= 0
    /\ write cfg world message m
       = (Ret (PyStr (Py.bytes_strip (answer (port_pending world (S (tick m)) p)))),
          {| self := self m; tick := S (S (tick m)) |},
          PortWrite p line (Some n) :: Sleep 100
          :: List.concat (map (drain_round p) (waiting (port_pending world (S (tick m)) p)))
          ++ [PortInWaiting p (Some k)]).
Proof.
  intros Hflag Hport Hline Hwrite Hscript.
  destruct (drain_loop_answer p _ Hscript EmptyString) as (k & Hk & Hdrain).
  exists k. split; [exact Hk |].
  unfold write, connected, write_try, attempt, port_write_line, port_write_call, drain, sleep,
    bind, get_self, next_tick, emit, ret, raise.
  rewrite Hflag. cbn -[drain_loop]. rewrite Hport, Hline, Hwrite. cbn -[drain_loop].
  rewrite Hport. cbn [tick self]. rewrite Hdrain. cbn. rewrite ?app_nil_r. reflexivity.
Qed.

Lemma write_unplugged (message : Py.str) (m : Machine) :
  modem_connected (self m) = false ->
  serial_Serial world (tick m) (GSM_MODEM_PORT cfg) (GSM_MODEM_BAUDRATE cfg) = false ->
  write cfg world message m
  = (Ret (PyBytes EmptyString), {| self := self m; tick := S (tick m) |},
     [SerialOpen (GSM_MODEM_PORT cfg) (GSM_MODEM_BAUDRATE cfg) None]).
Proof.
  intros Hflag Hclosed. unfold write. unfold bind at 1.
  unfold connected, try_except, Serial, bind. cbn [get_self next_tick].
  rewrite Hflag. cbn [get_self next_tick]. rewrite Hclosed. reflexivity.
Qed.

(** X21: an SMS for a modem that is not connected and cannot be opened
    is lost without a word: [send_sms] tries three times to open the
    device, once per line, writes nothing, and returns normally. *)
Theorem send_sms_unplugged (dst : string) (message : Py.str) (m : Machine) :
  modem_connected (self m) = false ->
  (forall t, serial_Serial world t (GSM_MODEM_PORT cfg) (GSM_MODEM_BAUDRATE cfg) = false) ->
  send_sms cfg world dst message m
  = (Ret tt, {| self := self m; tick := S (S (S (tick m))) |},
     repeat (SerialOpen (GSM_MODEM_PORT cfg) (GSM_MODEM_BAUDRATE cfg) None) 3).
Proof.
  intros Hflag Hclosed. unfold send_sms. unfold bind at 1.
  rewrite (write_unplugged _ m Hflag (Hclosed _)). unfold bind at 1.
  rewrite (write_unplugged _ {| self := self m; tick := S (tick m) |} Hflag (Hclosed _)).
  unfold bind at 1.
  rewrite (write_unplugged _ {| self := self m; tick := S (S (tick m)) |} Hflag (Hclosed _)).
  reflexivity.
Qed.

End WriteFacts.

Lemma write_returns_answer_witness :
  exists k : Z,
    k <= 0
    /\ write Scenario.cfg Scenario.chatty "AT" Scenario.online
       = (Ret (PyStr (Py.bytes_strip (answer (port_pending Scenario.chatty 2 0%nat)))),
          {| self := self Scenario.online; tick := 3 |},
          PortWrite 0%nat ("AT" +:+ Py.CRLF) (Some 4) :: Sleep 100
          :: List.concat (map (drain_round 0%nat)
                            (waiting (port_pending Scenario.chatty 2 0%nat)))
          ++ [PortInWaiting 0%nat (Some k)]).
Proof.
  apply (write_returns_answer Scenario.cfg Scenario.chatty "AT" ("AT" +:+ Py.CRLF)
           Scenario.online 0%nat 4);
    reflexivity.
Defined.

Example chatty_answer :
  (write Scenario.cfg Scenario.chatty "AT" Scenario.online).1.1 = Ret (PyStr "OK").
Proof. reflexivity. Qed.

Lemma send_sms_unplugged_witness :
  send_sms Scenario.cfg Scenario.unplugged "+15550100" "REJECTED: x" Scenario.dropped
  = (Ret tt, {| self := self Scenario.dropped; tick := 4 |},
     repeat (SerialOpen "/dev/ttyUSB0" 9600 None) 3).
Proof.
  apply (send_sms_unplugged Scenario.cfg Scenario.unplugged "+15550100" "REJECTED: x"
           Scenario.dropped).
  - reflexivity.
  - intros t. reflexivity.
Defined.

Lemma event_missing_key_witness :
  event lt_priority {[ "major" := (40, "Special alarm") ]} Scenario.fresh
  = (Raise KeyError, Scenario.fresh, []).
Proof.
  destruct (event_missing_key lt_priority {[ "major" := (40, "Special alarm") ]}
              Scenario.fresh) as [_ H].
  destruct (H 40 "Special alarm" eq_refl eq_refl) as (_ & Hraise & _).
  apply Hraise. right. reflexivity.
Defined.
